(** * STRprofiler: canonicalisation, scoring, mixing check and ranking

    A shallow embedding of [strprofiler.py].  Python dictionaries are
    finite maps ([gmap]), Python sets are finite sets ([gset]), Python
    integers are [Z], exceptions are an explicit error result, and the
    pandas frames are lists of rows. *)

From Stdlib Require Import ZArith QArith Ascii String DecimalString.
From stdpp Require Import gmap strings list fin_maps sorting.

Local Open Scope Z_scope.
#[local] Set Warnings "-clear-no-such-hyp".

(** ** Exceptions *)

Inductive exn : Type :=
  | ZeroDivisionError
  | IndexError
  | KeyError
  | ValueError
  | TypeError.

Inductive result (A : Type) : Type :=
  | Ok (a : A)
  | Raise (e : exn).
Arguments Ok {A} a.
Arguments Raise {A} e.

#[export] Instance result_ret : MRet result := @Ok.

#[export] Instance result_bind : MBind result := λ A B k r,
  match r with
  | Ok a => k a
  | Raise e => Raise e
  end.

(** [for x in l: ...] over a body that may raise. *)
Fixpoint mapM_result {A B : Type} (f : A → result B) (l : list A) : result (list B) :=
  match l with
  | [] => Ok []
  | x :: l' =>
      y ← f x;
      ys ← mapM_result f l';
      Ok (y :: ys)
  end.

(** ** Python string methods *)

Module Py.

(** [s.split(",")]: never returns an empty list. *)
Fixpoint split (sep : ascii) (s : string) : list string :=
  match s with
  | EmptyString => [EmptyString]
  | String c s' =>
      if decide (c = sep) then EmptyString :: split sep s'
      else match split sep s' with
           | h :: t => String c h :: t
           | [] => [String c EmptyString]
           end
  end.

(** [sep.join(l)] *)
Fixpoint join (sep : string) (l : list string) : string :=
  match l with
  | [] => EmptyString
  | [x] => x
  | x :: l' => (x ++ sep ++ join sep l')%string
  end.

Definition mem (c : ascii) (chars : list ascii) : bool :=
  bool_decide (c ∈ chars).

(** [s.lstrip(chars)] drops every leading character that belongs to
    the set [chars]. *)
Fixpoint lstrip (chars : list ascii) (s : string) : string :=
  match s with
  | EmptyString => EmptyString
  | String c s' => if mem c chars then lstrip chars s' else s
  end.

(** [s.rstrip(chars)] drops every trailing character that belongs to
    the set [chars]; [chars] is a set of characters, not a suffix. *)
Fixpoint rstrip (chars : list ascii) (s : string) : string :=
  match s with
  | EmptyString => EmptyString
  | String c s' =>
      match rstrip chars s' with
      | EmptyString => if mem c chars then EmptyString else String c EmptyString
      | r => String c r
      end
  end.

Definition strip_chars (chars : list ascii) (s : string) : string :=
  lstrip chars (rstrip chars s).

(** The ASCII characters for which [str.isspace] holds. *)
Definition whitespace : list ascii :=
  ["009"; "010"; "011"; "012"; "013"; "028"; "029"; "030"; "031"; " "]%char.

(** [s.strip()] *)
Definition strip (s : string) : string := strip_chars whitespace s.

(** [list(OrderedDict.fromkeys(l))]: first occurrences, in order. *)
Fixpoint fromkeys (seen : list string) (l : list string) : list string :=
  match l with
  | [] => []
  | x :: l' =>
      if bool_decide (x ∈ seen) then fromkeys seen l'
      else x :: fromkeys (x :: seen) l'
  end.

(** [l = list(set(l)); l.sort()]: the distinct elements in
    lexicographic order. *)
Definition sorted_set (l : list string) : list string :=
  merge_sort String.le (fromkeys [] l).

End Py.

(** ** Floating-point scores

    The scores are Python floats.  The arithmetic the program performs
    on them is kept abstract: true division of two integers with a
    nonzero divisor, multiplication of a float by an integer, the
    [>=] test against a threshold, and the rendering
    [round(decimals=2).astype(str)].  None of these produces
    not-a-number; the not-a-number cells of a frame are [None]. *)

Class PyFloat (F : Type) : Type := {
  truediv : Z → Z → F;
  int_mul : Z → F → F;
  fge : F → F → bool;
  round2_str : F → string
}.

(** [a / b] on Python integers. *)
Definition py_truediv {F} {PF : PyFloat F} (a b : Z) : result F :=
  if b =? 0 then Raise ZeroDivisionError else Ok (truediv a b).

(** Exact rational arithmetic with a decimal rendering, used to run the
    definitions. *)
Definition Q_ge (x y : Q) : bool := Qle_bool y x.

Definition Z_str (z : Z) : string :=
  NilZero.string_of_uint (N.to_uint (Z.to_N z)).

(** A rational times one hundred, rounded half to even. *)
Definition round_half_even (x : Q) : Z :=
  let num := 100 * Qnum x in
  let den := Zpos (Qden x) in
  let fl := num / den in
  let rem := num mod den in
  match 2 * rem ?= den with
  | Lt => fl
  | Gt => fl + 1
  | Eq => if Z.even fl then fl else fl + 1
  end.

Definition Q_round2_str (x : Q) : string :=
  let n := round_half_even x in
  let a := Z.abs n in
  let sign := if n <? 0 then "-" else "" in
  let frac :=
    if a mod 100 mod 10 =? 0 then Z_str (a mod 100 / 10)
    else Z_str (a mod 100 / 10) +:+ Z_str (a mod 100 mod 10) in
  sign +:+ Z_str (a / 100) +:+ "." +:+ frac.

#[export] Instance Q_PyFloat : PyFloat Q := {|
  truediv a b := (inject_Z a / inject_Z b)%Q;
  int_mul n x := (inject_Z n * x)%Q;
  fge := Q_ge;
  round2_str := Q_round2_str
|}.

(** ** The similarity scorer *)

Record ScoreResult (F : Type) : Type := {
  n_shared_markers : Z;
  query_sample : bool;
  n_shared_alleles : Z;
  n_query_alleles : Z;
  n_reference_alleles : Z;
  tanabe_score : F;
  masters_query_score : F;
  masters_ref_score : F
}.
Arguments n_shared_markers {F}.
Arguments query_sample {F}.
Arguments n_shared_alleles {F}.
Arguments n_query_alleles {F}.
Arguments n_reference_alleles {F}.
Arguments tanabe_score {F}.
Arguments masters_query_score {F}.
Arguments masters_ref_score {F}.

(** [{k: list(set(v.split(","))) for k, v in d.items() if v != ""}] *)
Definition allele_lists (d : gmap string string) : gmap string (gset string) :=
  (λ v, list_to_set (Py.split "," v)) <$> filter (λ kv, kv.2 ≠ "") d.

(** The shared markers, with the amelogenin column removed unless
    [use_amel]. *)
Definition shared_markers (query reference : gmap string (gset string))
    (use_amel : bool) (amel_col : string) : gset string :=
  let markers := dom query ∩ dom reference in
  if use_amel then markers else markers ∖ {[amel_col]}.

(** One turn of the counting loop; the state is
    [(n_r_alleles, n_q_alleles, n_shared_alleles)]. *)
Definition count_marker (query reference : gmap string (gset string))
    (acc : Z * Z * Z) (m : string) : Z * Z * Z :=
  let '(n_r_alleles, n_q_alleles, n_shared_alleles) := acc in
  (n_r_alleles + Z.of_nat (size (reference !!! m)),
   n_q_alleles + Z.of_nat (size (query !!! m)),
   n_shared_alleles + Z.of_nat (size ((reference !!! m) ∩ (query !!! m)))).

Definition count_alleles (query reference : gmap string (gset string))
    (markers : gset string) : Z * Z * Z :=
  fold_left (count_marker query reference) (elements markers) (0, 0, 0).

Definition score_query {F} {PF : PyFloat F} (query reference : gmap string string)
    (use_amel : bool) (amel_col : string) : result (ScoreResult F) :=
  let query := allele_lists query in
  let reference := allele_lists reference in
  let markers := shared_markers query reference use_amel amel_col in
  let n_shared_markers := Z.of_nat (size markers) in
  let '(n_r_alleles, n_q_alleles, n_shared_alleles) :=
    count_alleles query reference markers in
  t ← py_truediv (2 * n_shared_alleles) (n_q_alleles + n_r_alleles);
  let tanabe_score := int_mul 100 t in
  mq ← py_truediv n_shared_alleles n_q_alleles;
  let masters_q_score := int_mul 100 mq in
  mr ← py_truediv n_shared_alleles n_r_alleles;
  let masters_r_score := int_mul 100 mr in
  Ok {| n_shared_markers := n_shared_markers;
        query_sample := false;
        n_shared_alleles := n_shared_alleles;
        n_query_alleles := n_q_alleles;
        n_reference_alleles := n_r_alleles;
        tanabe_score := tanabe_score;
        masters_query_score := masters_q_score;
        masters_ref_score := masters_r_score |}.

(** ** The mixing detector *)

Definition mixing_check (alleles : gmap string string)
    (three_allele_threshold : Z) : bool :=
  let past_th :=
    map_fold (λ _ v past_th,
                let all_a := Py.split "," v in
                if (2 <? length all_a)%nat then past_th + 1 else past_th)
             0 alleles in
  if past_th >? three_allele_threshold then true else false.

(** ** The canonicaliser

    A raw table is what pandas hands to [str_ingress] after the file
    has been read.  A cell is either not-a-number or a value, given by
    its [str(...)] rendering (so the float 10.0 is [Str "10.0"]).  The
    layout test [len(df.filter(like="Allele").columns) > 0] and the
    column look-ups by name are resolved in the constructor: a wide row
    carries its sample cell, its marker name and the cells of the
    "Allele" columns in column order; a long row carries its sample cell
    and the remaining columns as a dictionary.  Marker names are
    strings, and so are the sample names of a wide table: a sample
    column that pandas reads as numbers is grouped in numeric order and
    is outside the model.  A wide table has at least one row; on a wide
    table without rows the [.str] accessor of line 60 raises
    [AttributeError], and a table that lacks the sample or the marker
    column raises [KeyError] at the look-up; such tables are outside the
    model as well. *)

Inductive cell : Type :=
  | NaN
  | Str (s : string).

#[export] Instance cell_eq_dec : EqDecision cell.
Proof. solve_decision. Defined.

Record wide_row : Type := {
  w_sample : cell;
  w_marker : string;
  w_alleles : list cell
}.

Record long_row : Type := {
  l_sample : cell;
  l_markers : gmap string cell
}.

Inductive table : Type :=
  | Wide (rows : list wide_row)
  | Long (rows : list long_row).

(** [str(y)] after [df.applymap(lambda x: x.strip() if type(x) == str else x)]. *)
Definition cell_str (y : cell) : string :=
  match y with
  | NaN => "nan"
  | Str s => Py.strip s
  end.

(** The value after [df.replace(np.nan, "")] and [df.astype(str)]. *)
Definition cell_astype_str (y : cell) : string :=
  match y with
  | NaN => ""
  | Str s => Py.strip s
  end.

(** [",".join([str(y).strip().rstrip(".0") for y in x if str(y) != "nan"])]
    followed by [.str.strip(",")]. *)
Definition collapse_alleles (x : list cell) : string :=
  Py.strip_chars [","%char]
    (Py.join ","
       (fmap (λ y, Py.rstrip ["."; "0"]%char (Py.strip (cell_str y)))
            (filter (λ y, cell_str y ≠ "nan") x))).

Definition _clean_element (x : string) : string :=
  let elements :=
    fmap (λ s, Py.rstrip ["."; "0"]%char (Py.strip s)) (Py.split "," x) in
  let elements := Py.sorted_set elements in
  Py.join "," elements.

(** [",".join(OrderedDict.fromkeys(v.split(",")))] *)
Definition remove_duplicates (v : string) : string :=
  Py.join "," (Py.fromkeys [] (Py.split "," v)).

(** A dictionary built from items in order: a later item overwrites an
    earlier one with the same key. *)
Definition dict_of_items {V} (items : list (string * V)) : gmap string V :=
  fold_left (λ d kv, <[kv.1 := kv.2]> d) items ∅.

(** [if spaced in d: d[canon] = d.pop(spaced)
     elif under in d: d[canon] = d.pop(under)] *)
Definition penta_rename (spaced under canon : string)
    (d : gmap string string) : gmap string string :=
  match d !! spaced with
  | Some v => <[canon := v]> (delete spaced d)
  | None =>
      match d !! under with
      | Some v => <[canon := v]> (delete under d)
      | None => d
      end
  end.

Definition penta_fix_dict (d : gmap string string) : gmap string string :=
  penta_rename "Penta E" "Penta_E" "PentaE"
    (penta_rename "Penta D" "Penta_D" "PentaD" d).

(** The keys of [df.groupby(sample_col).groups]: the distinct sample
    names in sorted order, which for names that are strings is the
    order of text; rows without a sample name are dropped. *)
Definition group_keys (rows : list wide_row) : list string :=
  Py.sorted_set
    (omap (λ r, match w_sample r with
                | NaN => None
                | Str s => Some (Py.strip s)
                end) rows).

(** [grouped.get_group(samp)]: the rows of a wide table that belong to
    the sample [samp]. *)
Definition sample_rows (rows : list wide_row) (samp : string) : list wide_row :=
  filter (λ r, w_sample r ≠ NaN ∧ cell_str (w_sample r) = samp) rows.

(** The dictionary of one sample of a wide table. *)
Definition wide_sample_dict (penta_fix : bool) (rows : list wide_row)
    (samp : string) : gmap string string :=
  let samp_df := sample_rows rows samp in
  let samps_dict :=
    dict_of_items
      (fmap (λ r, (Py.strip (w_marker r), collapse_alleles (w_alleles r))) samp_df) in
  let samps_dict := <["Sample" := samp]> samps_dict in
  let samps_dict :=
    map_imap (λ k v, Some (if decide (k = "Sample") then v else remove_duplicates v))
             samps_dict in
  if penta_fix then penta_fix_dict samps_dict else samps_dict.

(** The dictionary of one row of a long table. *)
Definition long_sample_dict (r : long_row) : gmap string string :=
  let s := cell_astype_str <$> l_markers r in
  let s := <["Sample" := cell_astype_str (l_sample r)]> s in
  map_imap (λ k v, Some (if decide (k = "Sample") then v else _clean_element v)) s.

Definition table_dicts (penta_fix : bool) (t : table) : list (gmap string string) :=
  match t with
  | Wide rows => fmap (wide_sample_dict penta_fix rows) (group_keys rows)
  | Long rows => fmap long_sample_dict rows
  end.

(** [pandas.Series.to_string(header=False, index=False)] on the new
    names selected for one identifier is left to pandas. *)
Class SeriesRender : Type := {
  to_string : list string → string
}.

(** The assignment of one turn of the renaming loop on one row: the
    row is re-keyed when its sample key is [id]. *)
Definition rename_dict {SR : SeriesRender} (sample_map : list (string * string))
    (id : string) (d : gmap string string) : gmap string string :=
  let new := to_string (fmap snd (filter (λ p, p.1 = id) sample_map)) in
  if decide (d !! "Sample" = Some id) then <["Sample" := new]> d else d.

(** One turn of the renaming loop, for the identifier [id]. *)
Definition rename_id {SR : SeriesRender} (sample_map : list (string * string))
    (allele_df : list (gmap string string)) (id : string) : list (gmap string string) :=
  fmap (rename_dict sample_map id) allele_df.

Definition apply_sample_map {SR : SeriesRender} (sample_map : option (list (string * string)))
    (allele_df : list (gmap string string)) : list (gmap string string) :=
  match sample_map with
  | None => allele_df
  | Some sm => fold_left (rename_id sm) (fmap fst sm) allele_df
  end.

(** The list [samps_dicts] after the loop over the input tables. *)
Definition sample_dicts (penta_fix : bool) (tables : list table)
    : list (gmap string string) :=
  concat (fmap (table_dicts penta_fix) tables).

(** The columns of [pd.DataFrame(samps_dicts)]. *)
Definition frame_columns (samps_dicts : list (gmap string string)) : gset string :=
  ⋃ (dom <$> samps_dicts).

(** One row of the frame after [set_index("Sample")] and
    [replace({np.nan: ""})]: the index and the marker columns, a
    missing value being the empty string. *)
Definition frame_record (columns : gset string) (d : gmap string string)
    : string * gmap string string :=
  (d !!! "Sample",
   delete "Sample" d ∪ gset_to_gmap "" (columns ∖ {["Sample"]})).

(** The canonical cohort: the rows of the returned frame in order, as
    [df.to_dict(orient="index")] enumerates them. *)
Definition str_ingress {SR : SeriesRender} (tables : list table)
    (sample_map : option (list (string * string))) (penta_fix : bool)
    : result (list (string * gmap string string)) :=
  let samps_dicts := sample_dicts penta_fix tables in
  let columns := frame_columns samps_dicts in
  if decide ("Sample" ∈ columns) then
    let allele_df := apply_sample_map sample_map samps_dicts in
    let index := fmap (λ d : gmap string string, d !!! "Sample") allele_df in
    if decide (NoDup index) then Ok (fmap (frame_record columns) allele_df)
    else Raise ValueError
  else Raise KeyError.

(** ** The comparison engine and the summariser

    A row of a sample's comparison frame.  The ten fixed columns are
    fields; the marker columns are kept in [col_alleles].  In the source
    a row is one dictionary, so a marker named like a fixed column would
    overwrite it; the frames modelled here are those of cohorts whose
    marker names differ from the fixed column names.  A cell that holds
    not-a-number is [None]. *)

Record Row (F : Type) : Type := {
  col_Sample : string;
  col_mixed : option bool;
  col_query_sample : bool;
  col_n_shared_markers : option Z;
  col_n_shared_alleles : option Z;
  col_n_query_alleles : option Z;
  col_n_reference_alleles : option Z;
  col_tanabe_score : option F;
  col_masters_query_score : option F;
  col_masters_ref_score : option F;
  col_alleles : gmap string string
}.
Arguments col_Sample {F}.
Arguments col_mixed {F}.
Arguments col_query_sample {F}.
Arguments col_n_shared_markers {F}.
Arguments col_n_shared_alleles {F}.
Arguments col_n_query_alleles {F}.
Arguments col_n_reference_alleles {F}.
Arguments col_tanabe_score {F}.
Arguments col_masters_query_score {F}.
Arguments col_masters_ref_score {F}.
Arguments col_alleles {F}.

Definition fixed_columns : gset string :=
  {[ "Sample"; "mixed"; "query_sample"; "n_shared_markers"; "n_shared_alleles";
     "n_query_alleles"; "n_reference_alleles"; "tanabe_score";
     "masters_query_score"; "masters_ref_score" ]}.

(** [DataFrame.sort_values(by="tanabe_score", ascending=False,
    na_position="first")] with the default [kind]: the algorithm is
    pandas' and numpy's, not the program's. *)
Class FrameSort (F : Type) : Type := {
  sort_values : list (Row F) → list (Row F)
}.

(** What pandas documents for that call: the rows are rearranged, those
    with an undefined key come first, the others follow in descending
    order of the key.  Nothing is promised about rows with equal keys. *)
Definition descending {F} {PF : PyFloat F} (r1 r2 : Row F) : Prop :=
  ∃ x y, col_tanabe_score r1 = Some x ∧ col_tanabe_score r2 = Some y ∧ fge x y = true.

Definition sort_values_contract {F} {PF : PyFloat F} (sort : list (Row F) → list (Row F)) : Prop :=
  ∀ l, sort l ≡ₚ l ∧
       ∃ nans rest, sort l = nans ++ rest ∧
         Forall (λ r, col_tanabe_score r = None) nans ∧
         Forall (λ r, is_Some (col_tanabe_score r)) rest ∧
         Sorted descending rest.

Record Summary : Type := {
  sum_Sample : string;
  sum_mixed : bool;
  sum_top_hit : string;
  sum_next_best : string;
  sum_tanabe_matches : string;
  sum_masters_query_matches : string;
  sum_masters_ref_matches : string;
  sum_alleles : gmap string string
}.

(** [col.round(decimals=2).astype(str)] on one cell. *)
Definition cell_round_str {F} {PF : PyFloat F} (x : option F) : string :=
  match x with
  | None => "nan"
  | Some f => round2_str f
  end.

(** [col >= threshold] on one cell; false on not-a-number. *)
Definition cell_ge {F} {PF : PyFloat F} (x : option F) (th : F) : bool :=
  match x with
  | None => false
  | Some f => fge f th
  end.

(** [df[col].iloc[i]] *)
Definition iloc {A} (df : list A) (i : nat) : result A :=
  match df !! i with
  | Some x => Ok x
  | None => Raise IndexError
  end.

Definition hit_str {F} {PF : PyFloat F} (col : Row F → option F) (r : Row F) : string :=
  (col_Sample r ++ ": " ++ cell_round_str (col r))%string.

(** The rows of [samp_df[samp_df[col] >= threshold]], rendered and
    joined with "; ". *)
Definition matches_str {F} {PF : PyFloat F} (col : Row F → option F) (th : F)
    (samp_df : list (Row F)) : string :=
  Py.join "; " (fmap (hit_str col) (filter (λ r, cell_ge (col r) th = true) samp_df)).

Definition make_summary {F} {PF : PyFloat F} (samp_df : list (Row F))
    (alleles : gmap string string) (tan_threshold mas_q_threshold mas_r_threshold : F)
    (mixed : bool) (s_name : string) : result Summary :=
  let tanabe_out := matches_str col_tanabe_score tan_threshold samp_df in
  r1 ← iloc samp_df 1;
  let top_hit := hit_str col_tanabe_score r1 in
  r2 ← iloc samp_df 2;
  let next_hit := hit_str col_tanabe_score r2 in
  let masters_q_out := matches_str col_masters_query_score mas_q_threshold samp_df in
  let masters_r_out := matches_str col_masters_ref_score mas_r_threshold samp_df in
  Ok {| sum_Sample := s_name;
        sum_mixed := mixed;
        sum_top_hit := top_hit;
        sum_next_best := next_hit;
        sum_tanabe_matches := tanabe_out;
        sum_masters_query_matches := masters_q_out;
        sum_masters_ref_matches := masters_r_out;
        sum_alleles := alleles |}.

(** The placeholder row of the query sample. *)
Definition query_row {F} (s : string) (mixed : bool) (q : gmap string string) : Row F :=
  {| col_Sample := s;
     col_mixed := Some mixed;
     col_query_sample := true;
     col_n_shared_markers := None;
     col_n_shared_alleles := None;
     col_n_query_alleles := None;
     col_n_reference_alleles := None;
     col_tanabe_score := None;
     col_masters_query_score := None;
     col_masters_ref_score := None;
     col_alleles := q |}.

(** The row of one comparison partner. *)
Definition comparison_row {F} (sa : string) (scores : ScoreResult F)
    (r : gmap string string) : Row F :=
  {| col_Sample := sa;
     col_mixed := None;
     col_query_sample := query_sample scores;
     col_n_shared_markers := Some (n_shared_markers scores);
     col_n_shared_alleles := Some (n_shared_alleles scores);
     col_n_query_alleles := Some (n_query_alleles scores);
     col_n_reference_alleles := Some (n_reference_alleles scores);
     col_tanabe_score := Some (tanabe_score scores);
     col_masters_query_score := Some (masters_query_score scores);
     col_masters_ref_score := Some (masters_ref_score scores);
     col_alleles := r |}.

(** The rows appended by the inner loop [for sa in samps.keys()];
    [score_query] is called without [amel_col], which is therefore
    "AMEL". *)
Definition comparison_rows {F} {PF : PyFloat F} (samps : list (string * gmap string string))
    (s : string) (q : gmap string string) (score_amel : bool) : result (list (Row F)) :=
  mapM_result
    (λ sar : string * gmap string string,
       scores ← score_query q sar.2 score_amel "AMEL";
       Ok (comparison_row sar.1 scores sar.2))
    (filter (λ sar, sar.1 ≠ s) samps).

(** The frame of sample [s] as line 515 writes it, before
    [make_summary] is called: the placeholder row and the rows of the
    partners, sorted. *)
Definition sample_frame {F} {PF : PyFloat F} {FS : FrameSort F}
    (samps : list (string * gmap string string)) (mix_threshold : Z)
    (score_amel : bool) (sq : string * gmap string string)
    : result (list (Row F)) :=
  let s := sq.1 in
  let q := sq.2 in
  let mixed := mixing_check q mix_threshold in
  let q_out := query_row s mixed q in
  others ← comparison_rows samps s q score_amel;
  let samp_comps := q_out :: others in
  Ok (sort_values samp_comps).

(** One turn of the outer loop: the frame written for sample [s] and
    its summary line. *)
Definition compare_sample {F} {PF : PyFloat F} {FS : FrameSort F}
    (samps : list (string * gmap string string))
    (tan_threshold mas_q_threshold mas_r_threshold : F) (mix_threshold : Z)
    (score_amel : bool) (sq : string * gmap string string)
    : result (list (Row F) * Summary) :=
  let s := sq.1 in
  let q := sq.2 in
  let mixed := mixing_check q mix_threshold in
  let q_out := query_row s mixed q in
  others ← comparison_rows samps s q score_amel;
  let samp_comps := q_out :: others in
  let full_samp_out := sort_values samp_comps in
  summ ← make_summary full_samp_out q tan_threshold mas_q_threshold mas_r_threshold
                      mixed s;
  Ok (full_samp_out, summ).


(** ** Executable instances *)

(** Rendering used to run the definitions: the selected names one per
    line. *)
Definition newline_render : SeriesRender := {| to_string := Py.join (String "010" "") |}.

(** Insertion into a frame sorted in descending order, before the first
    row whose key is not above the new one. *)
Fixpoint insert_desc (r : Row Q) (l : list (Row Q)) : list (Row Q) :=
  match l with
  | [] => [r]
  | r' :: l' =>
      match col_tanabe_score r, col_tanabe_score r' with
      | Some x, Some y => if Q_ge x y then r :: l else r' :: insert_desc r l'
      | _, _ => r :: l
      end
  end.

Definition insertion_sort_desc (l : list (Row Q)) : list (Row Q) :=
  foldr insert_desc [] l.

(** A sort that keeps tied rows in their original order. *)
Definition stable_sort : FrameSort Q :=
  {| sort_values l :=
       filter (λ r, col_tanabe_score r = None) l ++
       insertion_sort_desc (filter (λ r, col_tanabe_score r ≠ None) l) |}.

(** *** The sort that pandas runs

    [sort_values] with one key calls [pandas.core.sorting.nargsort],
    which hands the defined keys to [numpy.argsort] with the kind
    "quicksort".  The module follows numpy's generic [aquicksort] for
    floating-point keys (npysort/quicksort.cpp), the routine used where
    no vectorised sort is dispatched: an introsort on the index array
    [a] over the keys [v], with median-of-three partitioning and an
    explicit stack, insertion sort for ranges of at most seventeen
    positions, and heapsort for a range whose depth budget is used up.
    Loops are bounded by the length of the array. *)
Module Numpy.

(** [Tag::less] on keys that are not not-a-number. *)
Definition less (x y : Q) : bool := negb (Qle_bool y x).

Definition get (a : list nat) (i : nat) : nat := default 0%nat (a !! i).

(** [v[a[i]]] *)
Definition key (v : list Q) (a : list nat) (i : nat) : Q :=
  default 0%Q (v !! get a i).

(** [INTP_SWAP] on the positions [i] and [j]. *)
Definition swap (a : list nat) (i j : nat) : list nat :=
  <[i := get a j]> (<[j := get a i]> a).

(** The scan [do ++pi; while (less(key at pi, vp))], entered at the
    incremented position. *)
Fixpoint scan_up (fuel : nat) (v : list Q) (a : list nat) (vp : Q) (pi : nat) : nat :=
  match fuel with
  | O => pi
  | S fuel => if less (key v a pi) vp then scan_up fuel v a vp (S pi) else pi
  end.

(** The scan [do --pj; while (less(vp, key at pj))], entered at the
    decremented position. *)
Fixpoint scan_down (fuel : nat) (v : list Q) (a : list nat) (vp : Q) (pj : nat) : nat :=
  match fuel with
  | O => pj
  | S fuel => if less vp (key v a pj) then scan_down fuel v a vp (pred pj) else pj
  end.

(** The partition loop: both scans, then leave when [pi >= pj], else
    swap the two positions and go on. *)
Fixpoint partition (fuel : nat) (v : list Q) (vp : Q) (a : list nat) (pi pj : nat)
    : list nat * nat :=
  match fuel with
  | O => (a, pi)
  | S fuel =>
      let pi := scan_up (length a) v a vp (S pi) in
      let pj := scan_down (length a) v a vp (pred pj) in
      if (pj <=? pi)%nat then (a, pi)
      else partition fuel v vp (swap a pi pj) pi pj
  end.

(** The inner loop of the insertion sort: while [pj > pl] and [vp] is
    below the key before [pj], that entry moves up by one. *)
Fixpoint shift (fuel : nat) (v : list Q) (a : list nat) (vp : Q) (pl pj : nat)
    : list nat * nat :=
  match fuel with
  | O => (a, pj)
  | S fuel =>
      if (pl <? pj)%nat && less vp (key v a (pred pj))
      then shift fuel v (<[pj := get a (pred pj)]> a) vp pl (pred pj)
      else (a, pj)
  end.

(** The insertion sort of the positions [pl .. pr]. *)
Definition insertion_sort (v : list Q) (a : list nat) (pl pr : nat) : list nat :=
  fold_left
    (λ a pi,
       let vi := get a pi in
       let vp := default 0%Q (v !! vi) in
       let '(a, pj) := shift (length a) v a vp pl pi in
       <[pj := vi]> a)
    (seq (S pl) (pr - pl)) a.

(** The sifting loop of [aheapsort] on the range that starts at
    [start], with the one-based positions of the C code. *)
Fixpoint sift (fuel : nat) (v : list Q) (a : list nat) (start n tmp i j : nat)
    : list nat :=
  match fuel with
  | O => <[(start + i - 1)%nat := tmp]> a
  | S fuel =>
      if (n <? j)%nat then <[(start + i - 1)%nat := tmp]> a
      else
        let j := if (j <? n)%nat && less (key v a (start + j - 1)) (key v a (start + j))
                 then S j else j in
        if less (default 0%Q (v !! tmp)) (key v a (start + j - 1))
        then sift fuel v (<[(start + i - 1)%nat := get a (start + j - 1)]> a)
                  start n tmp j (j + j)
        else <[(start + i - 1)%nat := tmp]> a
  end.

Definition heapsort (v : list Q) (a : list nat) (start n : nat) : list nat :=
  let a := fold_left (λ a l, sift n v a start n (get a (start + l - 1)) l (l + l))
                     (reverse (seq 1 (n / 2))) a in
  fold_left
    (λ a m,
       let tmp := get a (start + m - 1) in
       let a := <[(start + m - 1)%nat := get a start]> a in
       sift n v a start (pred m) tmp 1 2)
    (reverse (seq 2 (n - 1))) a.

Definition SMALL_QUICKSORT : nat := 16.

(** The loop [while ((pr - pl) > SMALL_QUICKSORT)]: partition, push
    the larger part and its depth, go on with the smaller part. *)
Fixpoint partition_while (fuel : nat) (v : list Q) (a : list nat) (pl pr : nat)
    (cdepth : Z) (stack : list (nat * nat * Z))
    : list nat * nat * nat * list (nat * nat * Z) :=
  match fuel with
  | O => (a, pl, pr, stack)
  | S fuel =>
      if (SMALL_QUICKSORT <? pr - pl)%nat then
        let pm := (pl + (pr - pl) / 2)%nat in
        let a := if less (key v a pm) (key v a pl) then swap a pm pl else a in
        let a := if less (key v a pr) (key v a pm) then swap a pr pm else a in
        let a := if less (key v a pm) (key v a pl) then swap a pm pl else a in
        let vp := key v a pm in
        let pj := (pr - 1)%nat in
        let a := swap a pm pj in
        let '(a, pi) := partition (length a) v vp a pl pj in
        let a := swap a pi (pr - 1) in
        let cdepth := cdepth - 1 in
        if (pi - pl <? pr - pi)%nat
        then partition_while fuel v a pl (pi - 1) cdepth ((S pi, pr, cdepth) :: stack)
        else partition_while fuel v a (S pi) pr cdepth ((pl, (pi - 1)%nat, cdepth) :: stack)
      else (a, pl, pr, stack)
  end.

(** The outer loop: heapsort or partition and insertion sort, then
    the next range from the stack. *)
Fixpoint quicksort_loop (fuel : nat) (v : list Q) (a : list nat) (pl pr : nat)
    (cdepth : Z) (stack : list (nat * nat * Z)) : list nat :=
  match fuel with
  | O => a
  | S fuel =>
      let '(a, stack) :=
        if cdepth <? 0 then (heapsort v a pl (pr - pl + 1), stack)
        else
          let '(a, pl, pr, stack) := partition_while (length a) v a pl pr cdepth stack in
          (insertion_sort v a pl pr, stack) in
      match stack with
      | [] => a
      | (pl, pr, cdepth) :: stack => quicksort_loop fuel v a pl pr cdepth stack
      end
  end.

(** [v.argsort(kind="quicksort")]: the index array starts as
    [0 .. num-1], the depth budget is twice the position of the highest
    set bit of [num]. *)
Definition argsort (v : list Q) : list nat :=
  let num := length v in
  quicksort_loop (S num) v (seq 0 num) 0 (num - 1) (Z.log2 (Z.of_nat num) * 2) [].

End Numpy.

(** [nargsort(items, kind="quicksort", ascending=False,
    na_position="first")]: the defined keys and their positions are
    reversed, argsorted, the result is reversed again, and the positions
    of the undefined keys are put in front. *)
Definition nargsort (items : list (option Q)) : list nat :=
  let idx := imap (λ i x, (i, x)) items in
  let non_nans := omap id items in
  let non_nan_idx := (filter (λ ix, is_Some ix.2) idx).*1 in
  let nan_idx := (filter (λ ix, ix.2 = None) idx).*1 in
  let non_nans := reverse non_nans in
  let non_nan_idx := reverse non_nan_idx in
  let indexer := Numpy.get non_nan_idx <$> Numpy.argsort non_nans in
  let indexer := reverse indexer in
  nan_idx ++ indexer.

(** [sort_values] as pandas and numpy compute it on rational scores. *)
Definition pandas_sort : FrameSort Q :=
  {| sort_values l := omap (λ i, l !! i) (nargsort (col_tanabe_score <$> l)) |}.

(** ** Definitions that follow the specification's words *)

(** The allele set of a marker value: the set of its comma-separated
    labels, and the empty set for a marker that was not called. *)
Definition AlleleSet (v : string) : gset string :=
  if decide (v = "") then ∅ else list_to_set (Py.split "," v).

(** The number of markers of a record whose allele set has strictly
    more than two alleles. *)
Definition markers_over_two (rec : gmap string string) : nat :=
  size (filter (λ kv, (2 < size (AlleleSet kv.2))%nat) rec).

(** A record as the canonicaliser leaves it: no marker value repeats a
    label. *)
Definition canonical (rec : gmap string string) : Prop :=
  map_Forall (λ _ v, NoDup (Py.split "," v)) rec.

(** The number of markers whose value has more than two comma-separated
    fields. *)
Definition fields_over_two (rec : gmap string string) : nat :=
  size (filter (λ kv, (2 < length (Py.split "," kv.2))%nat) rec).

(** The three allele totals [(n_r_alleles, n_q_alleles, n_shared_alleles)]
    of a pair, over its shared markers. *)
Definition allele_totals (query reference : gmap string string)
    (use_amel : bool) (amel_col : string) : Z * Z * Z :=
  count_alleles (allele_lists query) (allele_lists reference)
    (shared_markers (allele_lists query) (allele_lists reference) use_amel amel_col).

(** The marker names of a canonicalised input: the keys, other than
    the sample key, of the dictionaries collected from its rows. *)
Definition marker_names (penta_fix : bool) (tables : list table) : gset string :=
  frame_columns (sample_dicts penta_fix tables) ∖ {["Sample"]}.

(** The marker names as the rows of a raw table spell them. *)
Definition raw_marker_names (t : table) : gset string :=
  match t with
  | Wide rows =>
      list_to_set
        (omap (λ r, match w_sample r with
                    | NaN => None
                    | Str _ => Some (Py.strip (w_marker r))
                    end) rows)
  | Long rows => ⋃ ((λ r, dom (l_markers r)) <$> rows)
  end.

(** What the Penta folding does to the key set of one dictionary: the
    spaced spelling, or else the underscored one, gives way to the
    canonical one. *)
Definition fold_spelling (spaced under canon : string) (names : gset string)
    : gset string :=
  if decide (spaced ∈ names) then {[canon]} ∪ names ∖ {[spaced]}
  else if decide (under ∈ names) then {[canon]} ∪ names ∖ {[under]}
  else names.

Definition penta_fold (names : gset string) : gset string :=
  fold_spelling "Penta E" "Penta_E" "PentaE"
    (fold_spelling "Penta D" "Penta_D" "PentaD" names).

(** The marker names of the rows of one sample of a wide table,
    folded when the fix is enabled. *)
Definition wide_marker_names (penta_fix : bool) (rows : list wide_row)
    (samp : string) : gset string :=
  let names := list_to_set ((λ r, Py.strip (w_marker r)) <$> sample_rows rows samp) in
  if penta_fix then penta_fold names else names.

(** The marker names of a raw table after the Penta folding: in a wide
    table the names of the rows of each sample, folded sample by sample
    when the fix is enabled; in a long table the names as they are. *)
Definition folded_marker_names (penta_fix : bool) (t : table) : gset string :=
  match t with
  | Wide rows => ⋃ (wide_marker_names penta_fix rows <$> group_keys rows)
  | Long rows => ⋃ ((λ r, dom (l_markers r)) <$> rows)
  end.

(** What the renaming loop does to one sample key, turn after turn. *)
Definition rename_key {SR : SeriesRender} (sample_map : list (string * string))
    (k id : string) : string :=
  if decide (k = id)
  then to_string (fmap snd (filter (λ p, p.1 = id) sample_map))
  else k.

Definition rename_keys {SR : SeriesRender} (sample_map : option (list (string * string)))
    (k : string) : string :=
  match sample_map with
  | None => k
  | Some sm => fold_left (rename_key sm) (fmap fst sm) k
  end.

(** The markers of a record that hold a call: those whose value is not
    the empty string. *)
Definition called_markers (rec : gmap string string) : gset string :=
  dom (filter (λ kv, kv.2 ≠ "") rec).

(** The labels [_clean_element] works on: the comma-separated pieces of
    the value, each trimmed and stripped. *)
Definition cleaned_labels (x : string) : list string :=
  fmap (λ s, Py.rstrip ["."; "0"]%char (Py.strip s)) (Py.split "," x).

(** A table that contributes no sample: a wide table whose rows all
    lack a sample name, a long table without rows. *)
Definition no_samples (t : table) : Prop :=
  match t with
  | Wide rows => Forall (λ r, w_sample r = NaN) rows
  | Long rows => rows = []
  end.

(** The spellings the Penta folding looks at. *)
Definition penta_names : gset string :=
  {[ "Penta D"; "Penta_D"; "PentaD"; "Penta E"; "Penta_E"; "PentaE" ]}.

(** The new name a rename table gives to a sample key: the "new" entry
    of the row whose "old" entry is the key, the key itself when there is
    no such row. *)
Definition renamed (sample_map : list (string * string)) (k : string) : string :=
  default k ((list_to_map sample_map : gmap string string) !! k).

(** No "new" name of a rename table is the "old" entry of a later row. *)
Fixpoint chain_free (sample_map : list (string * string)) : Prop :=
  match sample_map with
  | [] => True
  | p :: post => (p.2 ∉ post.*1) ∧ chain_free post
  end.

(** What every dictionary collected from the input satisfies: it has a
    sample key, and no marker value repeats a label. *)
Definition dict_ok (d : gmap string string) : Prop :=
  is_Some (d !! "Sample") ∧
  ∀ m v, d !! m = Some v → m ≠ "Sample" → NoDup (Py.split "," v).

(** ** Example inputs *)

Definition recA : gmap string string := {[ "M1" := "9,10"; "M2" := "" ]}.
Definition recB : gmap string string := {[ "M1" := "9"; "M2" := "11" ]}.
Definition recC : gmap string string := {[ "M1" := "10"; "M2" := "11" ]}.
Definition recD : gmap string string := {[ "M1" := ""; "M2" := "11" ]}.
Definition recEmpty : gmap string string := {[ "M1" := ""; "M2" := "" ]}.
Definition recMixed : gmap string string :=
  {[ "M1" := "9,10,11"; "M2" := "7,8,9.3"; "M3" := "12"; "M4" := "" ]}.
Definition cohort3 : list (string * gmap string string) :=
  [("A", recA); ("B", recB); ("C", recC)].
Definition cohort2 : list (string * gmap string string) :=
  [("A", recA); ("B", recB)].

Definition wide_rows : list wide_row :=
  [ {| w_sample := Str "S001"; w_marker := "Penta D"; w_alleles := [Str "11"; Str "12"] |};
    {| w_sample := Str "S001"; w_marker := "D3S1358"; w_alleles := [Str "15"; Str "15"] |};
    {| w_sample := Str "S002"; w_marker := "D3S1358"; w_alleles := [Str "16.3"; NaN] |} ].
Definition long_rows : list long_row :=
  [ {| l_sample := Str "L001";
       l_markers := {[ "D3S1358" := Str "15, 17"; "TH01" := NaN ]} |} ].

(** One sample with a value under both "PentaD" and "Penta D". *)
Definition penta_both_rows : list wide_row :=
  [ {| w_sample := Str "S1"; w_marker := "PentaD"; w_alleles := [Str "9"] |};
    {| w_sample := Str "S1"; w_marker := "Penta D"; w_alleles := [Str "11"] |} ].

(** One sample "A" and a rename table whose first "new" name is the
    second "old" entry. *)
Definition sample_A : list long_row :=
  [ {| l_sample := Str "A"; l_markers := {[ "M1" := Str "9" ]} |} ].
Definition chained_map : list (string * string) := [("A", "B"); ("B", "C")].

(** Two rows of one sample that name the same marker. *)
Definition repeated_marker_rows : list wide_row :=
  [ {| w_sample := Str "S1"; w_marker := "TH01"; w_alleles := [Str "6"] |};
    {| w_sample := Str "S1"; w_marker := "TH01"; w_alleles := [Str "9.3"; Str "9.3"] |} ].

(** Twenty-five samples with the same record, in the order of their
    names. *)
Definition recT : gmap string string := {[ "M1" := "9,10" ]}.
Definition names25 : list string :=
  [ "S00"; "S01"; "S02"; "S03"; "S04"; "S05"; "S06"; "S07"; "S08"; "S09";
    "S10"; "S11"; "S12"; "S13"; "S14"; "S15"; "S16"; "S17"; "S18"; "S19";
    "S20"; "S21"; "S22"; "S23"; "S24" ].
Definition cohort25 : list (string * gmap string string) :=
  (λ n, (n, recT)) <$> names25.

(** One sample whose only marker is spelled "Penta D". *)
Definition penta_d_rows : list wide_row :=
  [ {| w_sample := Str "S1"; w_marker := "Penta D"; w_alleles := [Str "11"] |} ].

(** One sample with the alleles 10 and 200. *)
Definition sample_tens : list long_row :=
  [ {| l_sample := Str "S"; l_markers := {[ "M1" := Str "10,200" ]} |} ].

(** * Theorems *)

(** ** The scorer *)

Section scorer.
Context {F : Type} {PF : PyFloat F}.

Lemma count_marker_swap query reference n_r n_q n_s m :
  count_marker reference query (n_q, n_r, n_s) m =
  (let '(a, b, c) := count_marker query reference (n_r, n_q, n_s) m in (b, a, c)).
Proof.
  unfold count_marker. f_equal.
  by rewrite (comm_L (∩) (query !!! m) (reference !!! m)).
Qed.

Lemma fold_count_swap query reference l n_r n_q n_s x y z :
  fold_left (count_marker query reference) l (n_r, n_q, n_s) = (x, y, z) →
  fold_left (count_marker reference query) l (n_q, n_r, n_s) = (y, x, z).
Proof.
  revert n_r n_q n_s. induction l as [|m l IH]; intros n_r n_q n_s; cbn [fold_left].
  - congruence.
  - rewrite count_marker_swap.
    destruct (count_marker query reference (n_r, n_q, n_s) m) as [[a b] c].
    apply IH.
Qed.

Lemma fold_count_nonneg query reference l n_r n_q n_s x y z :
  0 ≤ n_r → 0 ≤ n_q → 0 ≤ n_s →
  fold_left (count_marker query reference) l (n_r, n_q, n_s) = (x, y, z) →
  0 ≤ x ∧ 0 ≤ y ∧ 0 ≤ z.
Proof.
  revert n_r n_q n_s.
  induction l as [|m l IH]; intros n_r n_q n_s ???; cbn [fold_left].
  - intros [= <- <- <-]. done.
  - unfold count_marker at 2. apply IH; lia.
Qed.

Lemma shared_markers_comm (query reference : gmap string (gset string)) use_amel amel_col :
  shared_markers query reference use_amel amel_col =
  shared_markers reference query use_amel amel_col.
Proof.
  unfold shared_markers.
  by rewrite (comm_L (∩) (dom query) (dom reference)).
Qed.

Lemma allele_totals_swap a b use_amel amel_col n_r n_q n_s :
  allele_totals a b use_amel amel_col = (n_r, n_q, n_s) →
  allele_totals b a use_amel amel_col = (n_q, n_r, n_s).
Proof.
  unfold allele_totals, count_alleles. intros Hab.
  rewrite (shared_markers_comm (allele_lists b)).
  by apply fold_count_swap.
Qed.

Lemma allele_totals_nonneg a b use_amel amel_col n_r n_q n_s :
  allele_totals a b use_amel amel_col = (n_r, n_q, n_s) →
  0 ≤ n_r ∧ 0 ≤ n_q ∧ 0 ≤ n_s.
Proof. apply fold_count_nonneg; lia. Qed.

(** [score_query] in terms of the totals. *)
Lemma score_query_unfold query reference use_amel amel_col n_r n_q n_s :
  allele_totals query reference use_amel amel_col = (n_r, n_q, n_s) →
  score_query (F:=F) query reference use_amel amel_col =
    (t ← py_truediv (2 * n_s) (n_q + n_r);
     mq ← py_truediv n_s n_q;
     mr ← py_truediv n_s n_r;
     Ok {| n_shared_markers :=
             Z.of_nat (size (shared_markers (allele_lists query)
                               (allele_lists reference) use_amel amel_col));
           query_sample := false;
           n_shared_alleles := n_s;
           n_query_alleles := n_q;
           n_reference_alleles := n_r;
           tanabe_score := int_mul 100 t;
           masters_query_score := int_mul 100 mq;
           masters_ref_score := int_mul 100 mr |}).
Proof.
  unfold allele_totals, score_query. intros ->. done.
Qed.

Lemma py_truediv_zero a : py_truediv (F:=F) a 0 = Raise ZeroDivisionError.
Proof. done. Qed.

Lemma py_truediv_nonzero a b : b ≠ 0 → py_truediv (F:=F) a b = Ok (truediv a b).
Proof. unfold py_truediv. intros Hb. destruct (Z.eqb_spec b 0); [done | done]. Qed.

(** C1.  When one of the allele totals of a pair is zero (the query
    total, the reference total or their sum), [score_query] does not
    return a score: it raises [ZeroDivisionError]. *)
Theorem score_query_zero_total_raises query reference use_amel amel_col n_r n_q n_s :
  allele_totals query reference use_amel amel_col = (n_r, n_q, n_s) →
  n_q = 0 ∨ n_r = 0 ∨ n_q + n_r = 0 →
  score_query (F:=F) query reference use_amel amel_col = Raise ZeroDivisionError.
Proof.
  intros Htot Hz. rewrite (score_query_unfold _ _ _ _ _ _ _ Htot).
  destruct (decide (n_q + n_r = 0)) as [->|Hsum]; [done|].
  rewrite (py_truediv_nonzero _ _ Hsum). simpl.
  destruct (decide (n_q = 0)) as [->|Hq]; [done|].
  rewrite (py_truediv_nonzero _ _ Hq). simpl.
  destruct Hz as [?|[->|?]]; done.
Qed.

(** C6.  With nonzero query and reference allele totals, both
    directions of a pair are scored, the Tanabe scores agree and the
    Masters query score of one direction is the Masters reference
    score of the other. *)
Theorem score_query_symmetric a b use_amel amel_col n_r n_q n_s :
  allele_totals a b use_amel amel_col = (n_r, n_q, n_s) →
  n_q ≠ 0 → n_r ≠ 0 →
  ∃ sab sba : ScoreResult F,
    score_query a b use_amel amel_col = Ok sab ∧
    score_query b a use_amel amel_col = Ok sba ∧
    tanabe_score sab = tanabe_score sba ∧
    masters_query_score sab = masters_ref_score sba ∧
    masters_ref_score sab = masters_query_score sba.
Proof.
  intros Hab Hq Hr.
  pose proof (allele_totals_nonneg _ _ _ _ _ _ _ Hab) as (?&?&?).
  pose proof (allele_totals_swap _ _ _ _ _ _ _ Hab) as Hba.
  rewrite (score_query_unfold _ _ _ _ _ _ _ Hab).
  rewrite (score_query_unfold _ _ _ _ _ _ _ Hba).
  rewrite !py_truediv_nonzero by lia. simpl.
  eexists _, _. split_and!; try done.
  simpl. by rewrite (Z.add_comm n_r n_q).
Qed.

End scorer.

(** ** The mixing detector *)

Section mixing.

Lemma AlleleSet_over_two v :
  NoDup (Py.split "," v) →
  (2 < size (AlleleSet v))%nat ↔ (2 < length (Py.split "," v))%nat.
Proof.
  intros Hnd. unfold AlleleSet. case_decide as Hv.
  - subst v. rewrite size_empty. simpl. lia.
  - by rewrite size_list_to_set.
Qed.

Lemma markers_over_two_fields rec :
  canonical rec → markers_over_two rec = fields_over_two rec.
Proof.
  intros Hrec. unfold markers_over_two, fields_over_two. f_equal.
  apply map_filter_ext. intros m v Hm. simpl.
  apply AlleleSet_over_two. by apply (Hrec m v).
Qed.

(** The loop of [mixing_check] counts the markers with more than two
    fields. *)
Lemma past_th_count (alleles : gmap string string) :
  map_fold (λ (_ : string) v past_th,
              if (2 <? length (Py.split "," v))%nat then past_th + 1 else past_th)
           0 alleles
  = Z.of_nat (fields_over_two alleles).
Proof.
  unfold fields_over_two.
  induction alleles as [|m v alleles Hm IH] using map_ind.
  - by rewrite map_fold_empty, map_filter_empty, map_size_empty.
  - rewrite map_fold_insert_L; [|intros; repeat case_match; lia|done].
    rewrite IH, map_filter_insert. simpl.
    destruct (Nat.ltb_spec 2 (length (Py.split "," v))) as [Hlt|Hge].
    + rewrite decide_True by done.
      rewrite map_size_insert_None; [lia|].
      by rewrite map_lookup_filter_None; left.
    + rewrite decide_False by lia.
      by rewrite delete_id.
Qed.

Lemma mixing_check_true alleles t :
  mixing_check alleles t = true ↔ t < Z.of_nat (fields_over_two alleles).
Proof.
  unfold mixing_check. cbv zeta. rewrite past_th_count.
  destruct (Z.gtb_spec (Z.of_nat (fields_over_two alleles)) t); split; (done || lia).
Qed.

Lemma mixing_check_false alleles t :
  mixing_check alleles t = false ↔ Z.of_nat (fields_over_two alleles) ≤ t.
Proof.
  rewrite <-not_true_iff_false, mixing_check_true. lia.
Qed.

(** C7.  On a canonical record [mixing_check] returns true exactly
    when the number of markers whose allele set has more than two
    alleles exceeds the threshold: a record with [t + 1] such markers
    is mixed, a record with [t] is not. *)
Theorem mixing_check_counts_markers_over_two (alleles : gmap string string) (t : Z) :
  canonical alleles →
  (mixing_check alleles t = true ↔ t < Z.of_nat (markers_over_two alleles)) ∧
  (Z.of_nat (markers_over_two alleles) = t + 1 → mixing_check alleles t = true) ∧
  (Z.of_nat (markers_over_two alleles) = t → mixing_check alleles t = false).
Proof.
  intros Hrec. rewrite (markers_over_two_fields alleles Hrec). split_and!.
  - apply mixing_check_true.
  - intros Heq. apply mixing_check_true. lia.
  - intros Heq. apply mixing_check_false. lia.
Qed.

Lemma fields_over_two_delete_empty alleles m :
  alleles !! m = Some "" → fields_over_two (delete m alleles) = fields_over_two alleles.
Proof.
  intros Hm. unfold fields_over_two. f_equal.
  apply map_filter_delete_not. intros y Hy. simpl.
  assert (y = "") as -> by congruence. simpl. lia.
Qed.

(** C10.  The empty allele value splits into one field; a marker
    holding it does not change the outcome of [mixing_check]; and a
    record whose markers all hold the empty value or at most two
    alleles is not mixed, whatever the threshold from zero up. *)
Theorem mixing_check_empty_and_small :
  Py.split "," "" = [""] ∧
  (∀ (alleles : gmap string string) m t,
      alleles !! m = Some "" →
      mixing_check alleles t = mixing_check (delete m alleles) t) ∧
  (∀ (alleles : gmap string string) t,
      0 ≤ t →
      map_Forall (λ _ v, v = "" ∨ (length (Py.split "," v) ≤ 2)%nat) alleles →
      mixing_check alleles t = false).
Proof.
  split_and!.
  - done.
  - intros alleles m t Hm.
    apply eq_true_iff_eq. rewrite !mixing_check_true.
    by rewrite fields_over_two_delete_empty.
  - intros alleles t Ht Hall. apply mixing_check_false.
    assert (fields_over_two alleles = 0%nat) as ->; [|lia].
    unfold fields_over_two. apply map_size_empty_iff, map_empty_filter.
    intros m v Hm. simpl.
    destruct (Hall m v Hm) as [->|?]; simpl; lia.
Qed.

End mixing.

(** ** Python strings *)

Section strings.
Implicit Types (s t : string) (c sep : ascii) (l : list string).

Lemma split_not_nil sep s : Py.split sep s ≠ [].
Proof.
  destruct s as [|c s]; simpl; [done|].
  case_decide; [done|]. by destruct (Py.split sep s).
Qed.

Lemma split_no_sep sep s :
  sep ∉ list_ascii_of_string s → Py.split sep s = [s].
Proof.
  induction s as [|c s IH]; simpl; [done|].
  rewrite not_elem_of_cons. intros [Hc Hs].
  rewrite decide_False by done. by rewrite IH.
Qed.

Lemma split_app_sep sep s t :
  sep ∉ list_ascii_of_string s →
  Py.split sep (s +:+ String sep t) = s :: Py.split sep t.
Proof.
  induction s as [|c s IH]; simpl.
  - intros _. by rewrite decide_True.
  - rewrite not_elem_of_cons. intros [Hc Hs].
    rewrite decide_False by done.
    change (String.append s (String sep t)) with (s +:+ String sep t).
    by rewrite IH.
Qed.

Lemma split_pieces sep s :
  Forall (λ p, sep ∉ list_ascii_of_string p) (Py.split sep s).
Proof.
  induction s as [|c s IH]; simpl.
  - constructor; [|done]. simpl. apply not_elem_of_nil.
  - case_decide as Hc.
    + constructor; [|done]. simpl. apply not_elem_of_nil.
    + destruct (Py.split sep s) as [|h t].
      * constructor; [|done]. simpl. rewrite not_elem_of_cons.
        split; [done|apply not_elem_of_nil].
      * inversion_clear IH. constructor; [|done].
        simpl. by rewrite not_elem_of_cons.
Qed.

Lemma split_join sep l :
  l ≠ [] →
  Forall (λ p, sep ∉ list_ascii_of_string p) l →
  Py.split sep (Py.join (String sep "") l) = l.
Proof.
  intros Hl Hall. induction Hall as [|x l Hx Hall IH]; [done|].
  destruct l as [|y l].
  - simpl. by apply split_no_sep.
  - change (Py.join (String sep "") (x :: y :: l))
      with (x +:+ String sep (Py.join (String sep "") (y :: l))).
    rewrite split_app_sep by done. f_equal. by apply IH.
Qed.

Lemma lstrip_chars chars s c :
  c ∈ list_ascii_of_string (Py.lstrip chars s) → c ∈ list_ascii_of_string s.
Proof.
  induction s as [|a s IH]; simpl; [done|].
  destruct (Py.mem a chars); [|done].
  intros ?. apply elem_of_cons. auto.
Qed.

Lemma rstrip_chars chars s c :
  c ∈ list_ascii_of_string (Py.rstrip chars s) → c ∈ list_ascii_of_string s.
Proof.
  induction s as [|a s IH]; simpl; [done|].
  destruct (Py.rstrip chars s) as [|b r] eqn:Hr.
  - destruct (Py.mem a chars); simpl.
    + by intros ?%elem_of_nil.
    + rewrite list_elem_of_singleton. intros ->. apply elem_of_cons. by left.
  - simpl in *. rewrite !elem_of_cons. intros [->|Hc]; [by left|].
    right. apply IH. by rewrite elem_of_cons.
Qed.

Lemma strip_chars_chars chars s c :
  c ∈ list_ascii_of_string (Py.strip_chars chars s) → c ∈ list_ascii_of_string s.
Proof. unfold Py.strip_chars. intros ?%lstrip_chars. by eapply rstrip_chars. Qed.

(** A trailing character of the stripped set never survives. *)
Lemma rstrip_app_mem chars s c :
  Py.mem c chars = true →
  Py.rstrip chars (s +:+ String c "") = Py.rstrip chars s.
Proof.
  intros Hc. induction s as [|a s IH]; simpl.
  - by rewrite Hc.
  - change (String.append s (String c "")) with (s +:+ String c "").
    by rewrite IH.
Qed.

Lemma rstrip_length chars s :
  (String.length (Py.rstrip chars s) ≤ String.length s)%nat.
Proof.
  induction s as [|a s IH]; simpl; [done|].
  destruct (Py.rstrip chars s) as [|b r].
  - destruct (Py.mem a chars); simpl; lia.
  - simpl in *. lia.
Qed.

Lemma string_length_app s t :
  String.length (s +:+ t) = (String.length s + String.length t)%nat.
Proof.
  induction s as [|a s IH]; simpl; [done|].
  change (String.append s t) with (s +:+ t). by rewrite IH.
Qed.

Lemma fromkeys_spec seen l :
  NoDup (Py.fromkeys seen l) ∧
  ∀ x, x ∈ Py.fromkeys seen l ↔ x ∈ l ∧ x ∉ seen.
Proof.
  revert seen. induction l as [|y l IH]; intros seen; simpl.
  - split; [constructor|]. intros x. rewrite elem_of_nil. tauto.
  - case_bool_decide as Hy.
    + destruct (IH seen) as [Hnd Hin]. split; [done|].
      intros x. rewrite Hin, elem_of_cons. split; [tauto|].
      intros [[->|?] ?]; tauto.
    + destruct (IH (y :: seen)) as [Hnd Hin]. split.
      * constructor; [|done]. rewrite Hin, elem_of_cons. tauto.
      * intros x. rewrite elem_of_cons, Hin, !elem_of_cons.
        destruct (decide (x = y)) as [->|]; tauto.
Qed.

Lemma fromkeys_NoDup l : NoDup (Py.fromkeys [] l).
Proof. apply fromkeys_spec. Qed.

Lemma fromkeys_elem_of l x : x ∈ Py.fromkeys [] l ↔ x ∈ l.
Proof.
  rewrite (proj2 (fromkeys_spec [] l)). rewrite elem_of_nil. tauto.
Qed.

Lemma fromkeys_not_nil l : l ≠ [] → Py.fromkeys [] l ≠ [].
Proof.
  destruct l as [|x l]; [done|]. intros _ Hnil.
  assert (x ∈ Py.fromkeys [] (x :: l)) as Hx
    by (apply fromkeys_elem_of, elem_of_cons; by left).
  rewrite Hnil in Hx. by apply elem_of_nil in Hx.
Qed.

Lemma sorted_set_NoDup l : NoDup (Py.sorted_set l).
Proof.
  unfold Py.sorted_set. rewrite merge_sort_Permutation. apply fromkeys_NoDup.
Qed.

Lemma sorted_set_elem_of l x : x ∈ Py.sorted_set l ↔ x ∈ l.
Proof.
  unfold Py.sorted_set. by rewrite merge_sort_Permutation, fromkeys_elem_of.
Qed.

Lemma sorted_set_not_nil l : l ≠ [] → Py.sorted_set l ≠ [].
Proof.
  intros Hl Hnil. apply (fromkeys_not_nil l Hl).
  apply Permutation_nil_r.
  pose proof (merge_sort_Permutation String.le (Py.fromkeys [] l)) as Hp.
  unfold Py.sorted_set in Hnil. by rewrite Hnil in Hp.
Qed.

(** The value stored for a wide-layout marker has no repeated label. *)
Lemma remove_duplicates_NoDup v : NoDup (Py.split "," (remove_duplicates v)).
Proof.
  unfold remove_duplicates.
  change ","%string with (String ","%char "").
  rewrite split_join.
  - apply fromkeys_NoDup.
  - apply fromkeys_not_nil, split_not_nil.
  - apply Forall_forall. intros p Hp.
    apply (proj1 (fromkeys_elem_of _ _)) in Hp.
    pose proof (split_pieces ","%char v) as Hall.
    rewrite Forall_forall in Hall. by apply Hall.
Qed.

(** The value stored for a long-layout marker has no repeated label. *)
Lemma clean_element_NoDup x : NoDup (Py.split "," (_clean_element x)).
Proof.
  unfold _clean_element.
  change ","%string with (String ","%char "").
  rewrite split_join.
  - apply sorted_set_NoDup.
  - apply sorted_set_not_nil. destruct (Py.split "," x) eqn:Hs; [|done].
    by destruct (split_not_nil ","%char x).
  - apply Forall_forall. intros p Hp.
    apply (proj1 (sorted_set_elem_of _ _)) in Hp.
    apply list_elem_of_fmap in Hp as (piece & -> & Hpiece).
    intros Hc%rstrip_chars%strip_chars_chars.
    pose proof (split_pieces ","%char x) as Hall.
    rewrite Forall_forall in Hall. by apply (Hall piece).
Qed.

End strings.

(** ** The canonicaliser *)

Section canonicaliser.
Implicit Types (d : gmap string string) (k m : string).

Lemma penta_rename_lookup spaced under canon d k :
  spaced ≠ canon → under ≠ canon →
  penta_rename spaced under canon d !! k =
    match d !! spaced with
    | Some v => if decide (k = canon) then Some v
                else if decide (k = spaced) then None else d !! k
    | None =>
        match d !! under with
        | Some v => if decide (k = canon) then Some v
                    else if decide (k = under) then None else d !! k
        | None => d !! k
        end
    end.
Proof.
  intros Hs Hu. unfold penta_rename.
  destruct (d !! spaced) as [v|] eqn:Hsp.
  - rewrite lookup_insert. repeat case_decide; subst; try done.
    + by rewrite lookup_delete_eq.
    + by rewrite lookup_delete_ne.
  - destruct (d !! under) as [v|] eqn:Hun; [|done].
    rewrite lookup_insert. repeat case_decide; subst; try done.
    + by rewrite lookup_delete_eq.
    + by rewrite lookup_delete_ne.
Qed.

Lemma penta_rename_ok spaced under canon d :
  spaced ≠ "Sample" → under ≠ "Sample" → canon ≠ "Sample" →
  dict_ok d → dict_ok (penta_rename spaced under canon d).
Proof.
  intros Hs Hu Hc [Hsample Hvals]. unfold penta_rename.
  destruct (d !! spaced) as [v|] eqn:Hsp.
  - split.
    + by rewrite lookup_insert_ne, lookup_delete_ne.
    + intros m w. rewrite lookup_insert_Some, lookup_delete_Some.
      intros [[<- <-]|(_ & _ & Hm)] Hne; eauto.
  - destruct (d !! under) as [v|] eqn:Hun; [|done].
    split.
    + by rewrite lookup_insert_ne, lookup_delete_ne.
    + intros m w. rewrite lookup_insert_Some, lookup_delete_Some.
      intros [[<- <-]|(_ & _ & Hm)] Hne; eauto.
Qed.

Lemma penta_fix_dict_ok d : dict_ok d → dict_ok (penta_fix_dict d).
Proof. intros Hd. unfold penta_fix_dict. by do 2 (apply penta_rename_ok; [done..|]). Qed.

(** The dictionary of a sample before the Penta spellings are folded:
    the cleaning applied to every value but the sample key. *)
Lemma cleaned_dict_ok (clean : string → string) (items : gmap string string) samp :
  (∀ v, NoDup (Py.split "," (clean v))) →
  dict_ok (map_imap (λ k v, Some (if decide (k = "Sample") then v else clean v))
                    (<["Sample" := samp]> items)).
Proof.
  intros Hclean. split.
  - rewrite map_lookup_imap, lookup_insert_eq. simpl. by eexists.
  - intros m v. rewrite map_lookup_imap.
    destruct (<["Sample" := samp]> items !! m) as [w|]; simpl; [|done].
    intros [= <-] Hm. by rewrite decide_False.
Qed.

Lemma wide_sample_dict_ok penta_fix rows samp :
  dict_ok (wide_sample_dict penta_fix rows samp).
Proof.
  unfold wide_sample_dict. cbv zeta.
  destruct penta_fix; [apply penta_fix_dict_ok|];
    apply cleaned_dict_ok, remove_duplicates_NoDup.
Qed.

Lemma long_sample_dict_ok r : dict_ok (long_sample_dict r).
Proof. apply cleaned_dict_ok, clean_element_NoDup. Qed.

Lemma sample_dicts_ok penta_fix tables :
  Forall dict_ok (sample_dicts penta_fix tables).
Proof.
  unfold sample_dicts. apply Forall_concat, Forall_fmap, Forall_forall.
  intros [rows|rows] _; simpl; apply Forall_fmap, Forall_forall; intros ? _; simpl.
  - apply wide_sample_dict_ok.
  - apply long_sample_dict_ok.
Qed.

End canonicaliser.

(** ** Renaming and the frame *)

Section frame.
Context {SR : SeriesRender}.
Implicit Types (d : gmap string string) (k m : string).

Lemma rename_dict_spec sm id d :
  delete "Sample" (rename_dict sm id d) = delete "Sample" d ∧
  rename_dict sm id d !! "Sample" = (λ k, rename_key sm k id) <$> d !! "Sample".
Proof.
  unfold rename_dict, rename_key. cbv zeta. case_decide as Hid.
  - split; [by rewrite delete_insert_eq|].
    rewrite lookup_insert_eq, Hid. simpl. by rewrite decide_True.
  - split; [done|].
    destruct (d !! "Sample") as [k|] eqn:Hk; simpl; [|done].
    rewrite decide_False; [done|congruence].
Qed.

Lemma rename_fold_spec sm ids d :
  delete "Sample" (fold_left (λ d id, rename_dict sm id d) ids d) = delete "Sample" d ∧
  fold_left (λ d id, rename_dict sm id d) ids d !! "Sample"
    = (λ k, fold_left (rename_key sm) ids k) <$> d !! "Sample".
Proof.
  revert d. induction ids as [|id ids IH]; intros d; cbn [fold_left].
  - split; [done|]. by destruct (d !! "Sample").
  - destruct (IH (rename_dict sm id d)) as [-> ->].
    destruct (rename_dict_spec sm id d) as [-> ->].
    split; [done|]. by destruct (d !! "Sample").
Qed.

Lemma rename_fold_fmap sm ids (l : list (gmap string string)) :
  fold_left (rename_id sm) ids l
  = (λ d, fold_left (λ d id, rename_dict sm id d) ids d) <$> l.
Proof.
  revert l. induction ids as [|id ids IH]; intros l; cbn [fold_left].
  - by rewrite list_fmap_id.
  - rewrite IH. unfold rename_id. by rewrite <-list_fmap_compose.
Qed.

(** The renaming changes nothing but the sample key of each row. *)
Lemma apply_sample_map_spec sample_map (l : list (gmap string string)) :
  ∃ g : gmap string string → gmap string string,
    apply_sample_map sample_map l = g <$> l ∧
    ∀ d, delete "Sample" (g d) = delete "Sample" d ∧
         g d !! "Sample" = rename_keys sample_map <$> d !! "Sample".
Proof.
  destruct sample_map as [sm|]; cbn [apply_sample_map rename_keys].
  - eexists. split; [apply rename_fold_fmap|].
    intros d. apply rename_fold_spec.
  - exists (λ d, d). split; [symmetry; apply list_fmap_id|].
    intros d. split; [done|]. by destruct (d !! "Sample").
Qed.

Lemma frame_record_dom columns d :
  dom d ⊆ columns →
  dom (frame_record columns d).2 = columns ∖ {["Sample"]}.
Proof.
  intros Hd. unfold frame_record. simpl.
  rewrite dom_union_L, dom_delete_L, dom_gset_to_gmap. set_solver.
Qed.

Lemma frame_record_lookup columns d m :
  m ∈ columns ∖ {["Sample"]} →
  (frame_record columns d).2 !! m = Some (default "" (d !! m)).
Proof.
  intros Hm. unfold frame_record. simpl.
  rewrite lookup_union, lookup_delete_ne by set_solver.
  rewrite lookup_gset_to_gmap, option_guard_True by done.
  by destruct (d !! m).
Qed.

Lemma frame_record_rekey columns d d' :
  delete "Sample" d' = delete "Sample" d →
  (frame_record columns d').2 = (frame_record columns d).2.
Proof. unfold frame_record. simpl. by intros ->. Qed.

Lemma frame_columns_dom (l : list (gmap string string)) d :
  d ∈ l → dom d ⊆ frame_columns l.
Proof.
  intros Hd k Hk. unfold frame_columns. apply elem_of_union_list.
  exists (dom d). split; [|done]. by apply list_elem_of_fmap_2.
Qed.

(** In every cohort that [str_ingress] returns, each record has the
    marker names of the whole input as its keys, a marker the sample
    has no value for holds the empty string, and no value repeats a
    label. *)
Lemma ingress_records_uniform tables sample_map penta_fix cohort :
  str_ingress tables sample_map penta_fix = Ok cohort →
  Forall (λ srec : string * gmap string string,
            dom srec.2 = marker_names penta_fix tables ∧
            map_Forall (λ _ v, NoDup (Py.split "," v)) srec.2) cohort ∧
  Forall2 (λ d (srec : string * gmap string string),
             ∀ m, m ∈ marker_names penta_fix tables →
                  srec.2 !! m = Some (default "" (d !! m)))
          (sample_dicts penta_fix tables) cohort.
Proof.
  unfold str_ingress, marker_names. cbv zeta.
  set (dicts := sample_dicts penta_fix tables).
  set (columns := frame_columns dicts).
  case_decide as Hsample; [|done]. case_decide as Hindex; [|done].
  intros [= <-].
  destruct (apply_sample_map_spec sample_map dicts) as (g & -> & Hg).
  rewrite <-list_fmap_compose. split.
  - apply Forall_fmap, Forall_forall. intros d Hd. unfold compose.
    rewrite (frame_record_rekey columns d (g d)) by apply Hg.
    split.
    + by apply frame_record_dom, frame_columns_dom.
    + intros m v Hv.
      destruct (decide (m ∈ columns ∖ {["Sample"]})) as [Hm|Hm].
      * rewrite frame_record_lookup in Hv by done.
        injection Hv as <-.
        destruct (d !! m) as [w|] eqn:Hw; simpl; [|apply NoDup_singleton].
        pose proof (sample_dicts_ok penta_fix tables) as Hok.
        rewrite Forall_forall in Hok. destruct (Hok d Hd) as [_ Hvals].
        apply (Hvals m w Hw). set_solver.
      * apply elem_of_dom_2 in Hv.
        rewrite frame_record_dom in Hv by by apply frame_columns_dom.
        done.
  - apply Forall2_fmap_r, Forall_Forall2_diag, Forall_forall.
    intros d Hd m Hm. unfold compose.
    rewrite (frame_record_rekey columns d (g d)) by apply Hg.
    by apply frame_record_lookup.
Qed.

(** *** The rename table *)

Lemma filter_old_absent (sm : list (string * string)) old :
  old ∉ sm.*1 → filter (λ p, p.1 = old) sm = [].
Proof.
  induction sm as [|[o n] sm IH]; [done|].
  rewrite fmap_cons, not_elem_of_cons. simpl. intros [Hne Hnot].
  rewrite filter_cons_False by (simpl; congruence). auto.
Qed.

Lemma filter_old_entry (sm : list (string * string)) old new :
  NoDup sm.*1 → (old, new) ∈ sm → filter (λ p, p.1 = old) sm = [(old, new)].
Proof.
  induction sm as [|[o n] sm IH].
  - by intros _ ?%elem_of_nil.
  - rewrite fmap_cons, NoDup_cons, elem_of_cons. simpl.
    intros [Ho Hnd] [[= <- <-]|Hin].
    + rewrite filter_cons_True by done. f_equal. by apply filter_old_absent.
    + rewrite filter_cons_False; [by apply IH|].
      simpl. intros ->. apply Ho.
      apply list_elem_of_fmap. by exists (old, new).
Qed.

Lemma renamed_entry (sm : list (string * string)) old new :
  NoDup sm.*1 → (old, new) ∈ sm → renamed sm old = new.
Proof.
  intros Hnd Hin. unfold renamed.
  by rewrite (proj1 (elem_of_list_to_map sm old new Hnd) Hin).
Qed.

Lemma renamed_absent (sm : list (string * string)) k :
  k ∉ sm.*1 → renamed sm k = k.
Proof.
  intros Hk. unfold renamed. by rewrite not_elem_of_list_to_map_1.
Qed.

(** Under the three provisos the loop gives each key the name of its
    own row. *)
Lemma rename_loop_suffix (sm pre post : list (string * string)) k :
  (∀ new, new ∈ sm.*2 → to_string [new] = new) →
  NoDup sm.*1 → sm = pre ++ post → chain_free post →
  fold_left (rename_key sm) post.*1 k
  = if decide (k ∈ post.*1) then renamed sm k else k.
Proof.
  intros Hrender Hnd. revert pre k.
  induction post as [|[old new] post IH]; intros pre k Hsm Hchain.
  - done.
  - destruct Hchain as [Hnew Hchain]. simpl in Hnew.
    rewrite fmap_cons. cbn [fold_left fst].
    assert ((old, new) ∈ sm) as Hin.
    { rewrite Hsm, elem_of_app, elem_of_cons. right. by left. }
    rewrite (IH (pre ++ [(old, new)])); [|by rewrite <-app_assoc|done].
    destruct (decide (k = old)) as [->|Hne].
    + assert (rename_key sm old old = new) as ->.
      { unfold rename_key. rewrite decide_True by done.
        rewrite (filter_old_entry sm old new Hnd Hin). apply Hrender.
        by apply (list_elem_of_fmap_2 snd _ (old, new)). }
      rewrite decide_False by done.
      rewrite decide_True by (apply elem_of_cons; by left).
      by rewrite (renamed_entry sm old new).
    + assert (rename_key sm k old = k) as ->.
      { unfold rename_key. by rewrite decide_False. }
      destruct (decide (k ∈ post.*1)) as [Hk|Hk].
      * rewrite decide_True by (apply elem_of_cons; by right). done.
      * rewrite decide_False; [done|]. rewrite not_elem_of_cons. done.
Qed.

Lemma rename_keys_renamed (sm : list (string * string)) k :
  (∀ new, new ∈ sm.*2 → to_string [new] = new) → NoDup sm.*1 → chain_free sm →
  rename_keys (Some sm) k = renamed sm k.
Proof.
  intros Hrender Hnd Hchain. cbn [rename_keys].
  rewrite (rename_loop_suffix sm [] sm) by done.
  case_decide as Hk; [done|]. by rewrite renamed_absent.
Qed.

(** C8, as the loop runs it.  For a rename table whose "old" entries
    are distinct and in which no "new" name is the "old" entry of a
    later row, a record whose key is an "old" entry takes the "new"
    name of that row, every other record keeps its key, the records
    themselves are unchanged, and the ingress raises [ValueError] when
    two records share a key after the renaming. *)
Theorem sample_map_rekeys_records tables (sm : list (string * string)) penta_fix :
  (∀ new, new ∈ sm.*2 → to_string [new] = new) → NoDup sm.*1 → chain_free sm →
  str_ingress tables (Some sm) penta_fix
  = (cohort ← str_ingress tables None penta_fix;
     if decide (NoDup (renamed sm <$> cohort.*1))
     then Ok (prod_map (renamed sm) id <$> cohort)
     else Raise ValueError).
Proof.
  intros Hrender Hnd Hchain. unfold str_ingress. cbv zeta.
  set (dicts := sample_dicts penta_fix tables).
  set (columns := frame_columns dicts).
  case_decide as Hsample; [|done].
  destruct (apply_sample_map_spec (Some sm) dicts) as (g & -> & Hg).
  cbn [apply_sample_map].
  pose proof (sample_dicts_ok penta_fix tables) as Hok. fold dicts in Hok.
  assert (∀ d, d ∈ dicts →
            frame_record columns (g d)
            = prod_map (renamed sm) id (frame_record columns d)) as Hrec.
  { intros d Hd. rewrite Forall_forall in Hok.
    destruct (Hok d Hd) as [[k Hk] _]. destruct (Hg d) as [Hdel Hkey].
    unfold frame_record at 1. rewrite Hdel.
    rewrite Hk in Hkey.
    change (g d !! "Sample" = Some (rename_keys (Some sm) k)) in Hkey.
    rewrite (lookup_total_correct _ _ _ Hkey).
    rewrite rename_keys_renamed by done.
    unfold frame_record, prod_map. simpl.
    by rewrite (lookup_total_correct _ _ _ Hk). }
  assert ((λ d : gmap string string, d !!! "Sample") <$> (g <$> dicts)
          = renamed sm <$> ((λ d : gmap string string, d !!! "Sample") <$> dicts))
    as Hindex.
  { rewrite <-!list_fmap_compose. apply Forall_fmap_ext_1, Forall_forall.
    intros d Hd. unfold compose.
    change (g d !!! "Sample") with (frame_record columns (g d)).1.
    by rewrite Hrec. }
  rewrite Hindex.
  destruct (decide (NoDup ((λ d : gmap string string, d !!! "Sample") <$> dicts)))
    as [Hnames|Hnames]; cbn [mbind result_bind].
  - assert ((frame_record columns <$> dicts).*1
            = (λ d : gmap string string, d !!! "Sample") <$> dicts) as ->.
    { by rewrite <-list_fmap_compose. }
    case_decide; [|done]. f_equal.
    rewrite <-!list_fmap_compose. apply Forall_fmap_ext_1, Forall_forall.
    intros d Hd. unfold compose. by apply Hrec.
  - rewrite decide_False; [done|]. by intros ?%NoDup_fmap_1.
Qed.

End frame.

(** ** Penta spellings *)

Section penta.
Implicit Types (d : gmap string string) (k m : string).

Lemma dict_of_items_fold_dom (items : list (string * string)) d :
  dom (fold_left (λ d kv, <[kv.1 := kv.2]> d) items d)
  = dom d ∪ list_to_set items.*1.
Proof.
  revert d. induction items as [|[k v] items IH]; intros d; cbn [fold_left].
  - rewrite fmap_nil, list_to_set_nil. set_solver.
  - rewrite IH, dom_insert_L, fmap_cons, list_to_set_cons. set_solver.
Qed.

Lemma dict_of_items_dom (items : list (string * string)) :
  dom (dict_of_items items) = list_to_set items.*1.
Proof.
  unfold dict_of_items. rewrite dict_of_items_fold_dom, dom_empty_L. set_solver.
Qed.

Lemma cleaned_dict_dom (clean : string → string) (items : gmap string string) samp :
  dom (map_imap (λ k v, Some (if decide (k = "Sample") then v else clean v))
                (<["Sample" := samp]> items))
  = {["Sample"]} ∪ dom items.
Proof.
  apply dom_imap_L. intros k.
  rewrite <-(dom_insert_L items "Sample" samp), elem_of_dom. split.
  - intros [v Hv]. exists v. split; [done|by eexists].
  - intros (v & Hv & _). by exists v.
Qed.

Lemma wide_sample_dict_dom rows samp :
  dom (wide_sample_dict false rows samp)
  = {["Sample"]} ∪ list_to_set ((λ r, Py.strip (w_marker r)) <$> sample_rows rows samp).
Proof.
  unfold wide_sample_dict. cbv zeta.
  rewrite cleaned_dict_dom, dict_of_items_dom. f_equal.
  by rewrite <-list_fmap_compose.
Qed.

Lemma long_sample_dict_dom r :
  dom (long_sample_dict r) = {["Sample"]} ∪ dom (l_markers r).
Proof.
  unfold long_sample_dict. cbv zeta. by rewrite cleaned_dict_dom, dom_fmap_L.
Qed.

Lemma penta_fix_dict_lookup_other d k :
  k ∉ penta_names → penta_fix_dict d !! k = d !! k.
Proof.
  unfold penta_names, penta_fix_dict.
  rewrite !not_elem_of_union, !not_elem_of_singleton.
  intros [[[[[H1 H2] H3] H4] H5] H6].
  assert (∀ spaced under canon d',
            k ≠ spaced → k ≠ under → k ≠ canon → spaced ≠ canon → under ≠ canon →
            penta_rename spaced under canon d' !! k = d' !! k) as Hother.
  { intros spaced under canon d' ? ? ? ? ?.
    rewrite penta_rename_lookup by done.
    destruct (d' !! spaced), (d' !! under); repeat case_decide; congruence. }
  by rewrite !Hother.
Qed.

(** C5, as the code folds the spellings.  For the dictionary of a
    wide-layout sample with the fix enabled: the value under
    "Penta D" moves to "PentaD", replacing what was there; without a
    "Penta D" key the value under "Penta_D" moves to "PentaD" in the
    same way; without either, "PentaD" is as it was; likewise for
    "Penta E", "Penta_E" and "PentaE"; every other key is as it was.
    With the fix disabled the keys are the sample key and the marker
    names of the rows, in both layouts. *)
Theorem penta_fix_wide_moves_alias rows samp :
  let d0 := wide_sample_dict false rows samp in
  let d := wide_sample_dict true rows samp in
  (∀ v, d0 !! "Penta D" = Some v →
        d !! "PentaD" = Some v ∧ d !! "Penta D" = None) ∧
  (∀ v, d0 !! "Penta D" = None → d0 !! "Penta_D" = Some v →
        d !! "PentaD" = Some v ∧ d !! "Penta_D" = None) ∧
  (d0 !! "Penta D" = None → d0 !! "Penta_D" = None →
        d !! "PentaD" = d0 !! "PentaD") ∧
  (∀ v, d0 !! "Penta E" = Some v →
        d !! "PentaE" = Some v ∧ d !! "Penta E" = None) ∧
  (∀ v, d0 !! "Penta E" = None → d0 !! "Penta_E" = Some v →
        d !! "PentaE" = Some v ∧ d !! "Penta_E" = None) ∧
  (d0 !! "Penta E" = None → d0 !! "Penta_E" = None →
        d !! "PentaE" = d0 !! "PentaE") ∧
  (∀ k, k ∉ penta_names → d !! k = d0 !! k) ∧
  dom d0 = {["Sample"]} ∪
           list_to_set ((λ r, Py.strip (w_marker r)) <$> sample_rows rows samp) ∧
  (∀ r, dom (long_sample_dict r) = {["Sample"]} ∪ dom (l_markers r)).
Proof.
  intros d0 d.
  assert (d = penta_fix_dict d0) as Hd by done.
  pose proof (wide_sample_dict_dom rows samp) as Hdom. fold d0 in Hdom.
  clearbody d d0. subst d. unfold penta_fix_dict.
  split_and!.
  - intros v Hv. rewrite !penta_rename_lookup by done. rewrite Hv. simpl.
    repeat case_match; simplify_eq; done.
  - intros v Hs Hv. rewrite !penta_rename_lookup by done. rewrite Hs, Hv. simpl.
    repeat case_match; simplify_eq; done.
  - intros Hs Hu. rewrite !penta_rename_lookup by done. rewrite Hs, Hu. simpl.
    repeat case_match; simplify_eq; done.
  - intros v Hv. rewrite !penta_rename_lookup by done. rewrite Hv. simpl.
    repeat case_match; simplify_eq; done.
  - intros v Hs Hv. rewrite !penta_rename_lookup by done. rewrite Hs, Hv. simpl.
    repeat case_match; simplify_eq; done.
  - intros Hs Hu. rewrite !penta_rename_lookup by done. rewrite Hs, Hu. simpl.
    repeat case_match; simplify_eq; done.
  - intros k Hk. by apply penta_fix_dict_lookup_other.
  - done.
  - apply long_sample_dict_dom.
Qed.

End penta.

(** ** The comparison engine *)

Section ranking.
Context {F : Type} `{PF : PyFloat F} `{FS : FrameSort F}.
Implicit Types (samps : list (string * gmap string string)) (r : Row F).

Lemma mapM_result_Ok {A B} (f : A → result B) (l : list A) (l' : list B) :
  mapM_result f l = Ok l' → Forall2 (λ x y, f x = Ok y) l l'.
Proof.
  revert l'. induction l as [|x l IH]; intros l'; simpl.
  - intros [= <-]. constructor.
  - destruct (f x) as [y|e] eqn:Hx; [|done]. cbn [mbind result_bind].
    destruct (mapM_result f l) as [ys|e]; [|done]. cbn [mbind result_bind].
    intros [= <-]. constructor; auto.
Qed.

(** Every comparison row carries a defined score, and the rows come in
    the order of the cohort. *)
Lemma comparison_rows_Ok samps s q score_amel others :
  comparison_rows samps s q score_amel = Ok others →
  Forall (λ r, is_Some (col_tanabe_score r) ∧ col_query_sample r = false) others ∧
  col_Sample <$> others = (filter (λ sar, sar.1 ≠ s) samps).*1.
Proof.
  unfold comparison_rows. intros Hall%mapM_result_Ok.
  induction Hall as [|sar r l l' Hr Hall [IH1 IH2]]; [done|].
  destruct (score_query q sar.2 score_amel "AMEL") as [sc|e] eqn:Hsc; [|done].
  cbn [mbind result_bind] in Hr. injection Hr as <-. split.
  - constructor; [|done]. split; [by eexists|].
    unfold score_query in Hsc.
    repeat case_match; simplify_eq; try done.
    revert Hsc. unfold py_truediv. repeat case_match; try done.
    cbn [mbind result_bind]. by intros [= <-].
  - rewrite !fmap_cons. f_equal. apply IH2.
Qed.

Lemma filter_all (P : Row F → Prop) `{∀ r, Decision (P r)} (l : list (Row F)) :
  Forall P l → filter P l = l.
Proof.
  induction 1 as [|r l Hr Hl IH]; [done|].
  by rewrite filter_cons_True, IH.
Qed.

Lemma filter_none (P : Row F → Prop) `{∀ r, Decision (P r)} (l : list (Row F)) :
  Forall (λ r, ¬ P r) l → filter P l = [].
Proof.
  induction 1 as [|r l Hr Hl IH]; [done|].
  by rewrite filter_cons_False.
Qed.

(** A frame with exactly one undefined score, sorted by a sort that
    meets the contract: that row is first and the rest is in
    descending order. *)
Lemma sort_one_undefined q_out (others : list (Row F)) :
  sort_values_contract sort_values →
  col_tanabe_score q_out = None →
  Forall (λ r, is_Some (col_tanabe_score r)) others →
  ∃ rest, sort_values (q_out :: others) = q_out :: rest ∧
          rest ≡ₚ others ∧ Sorted descending rest.
Proof.
  intros Hsort Hq Hothers.
  destruct (Hsort (q_out :: others)) as (Hperm & nans & rest & Heq & Hnans & Hrest & Hdesc).
  assert (nans = [q_out]) as ->.
  { apply Permutation_singleton_r.
    assert (filter (λ r, col_tanabe_score r = None) (nans ++ rest)
            ≡ₚ filter (λ r, col_tanabe_score r = None) (q_out :: others)) as Hfilter.
    { by rewrite <-Heq, Hperm. }
    rewrite filter_app, filter_cons_True in Hfilter by done.
    rewrite (filter_all _ nans), (filter_none _ rest), (filter_none _ others) in Hfilter.
    - by rewrite app_nil_r in Hfilter.
    - eapply Forall_impl; [exact Hothers|]. by intros r [x ->].
    - eapply Forall_impl; [exact Hrest|]. by intros r [x ->].
    - done. }
  exists rest. split_and!; [done| |done].
  rewrite Heq in Hperm. by apply Permutation_cons_inv in Hperm.
Qed.

(** A turn of the outer loop is the frame of the sample followed by
    its summary. *)
Lemma compare_sample_frame samps th1 th2 th3 mix_threshold score_amel sq :
  compare_sample samps th1 th2 th3 mix_threshold score_amel sq
  = (full_samp_out ← sample_frame samps mix_threshold score_amel sq;
     summ ← make_summary full_samp_out sq.2 th1 th2 th3
                         (mixing_check sq.2 mix_threshold) sq.1;
     Ok (full_samp_out, summ)).
Proof.
  unfold compare_sample, sample_frame. cbv zeta.
  by destruct (comparison_rows samps sq.1 sq.2 score_amel).
Qed.

(** C3, as the frame is sorted.  In the frame written for a sample,
    whether or not a summary line can be made of it, the placeholder row
    of that sample is first, being the only row whose Tanabe score is
    undefined; the rows of the comparison partners follow in descending
    order of the Tanabe score.  The order of rows with equal scores is
    whatever the sort of pandas gives. *)
Theorem ranked_frame_self_first_then_descending
    samps mix_threshold score_amel s q full_samp_out :
  sort_values_contract sort_values →
  Forall (λ sar, dom sar.2 ## fixed_columns) samps →
  sample_frame samps mix_threshold score_amel (s, q) = Ok full_samp_out →
  ∃ others rest,
    comparison_rows samps s q score_amel = Ok others ∧
    col_Sample <$> others = (filter (λ sar, sar.1 ≠ s) samps).*1 ∧
    full_samp_out = query_row s (mixing_check q mix_threshold) q :: rest ∧
    rest ≡ₚ others ∧
    Sorted descending rest ∧
    Forall (λ r, is_Some (col_tanabe_score r) ∧ col_query_sample r = false) rest.
Proof.
  intros Hsort _. unfold sample_frame. cbv zeta. cbn [fst snd].
  destruct (comparison_rows samps s q score_amel) as [others|e] eqn:Hothers; [|done].
  cbn [mbind result_bind]. intros [= <-].
  destruct (comparison_rows_Ok _ _ _ _ _ Hothers) as [Hscores Hnames].
  destruct (sort_one_undefined (query_row s (mixing_check q mix_threshold) q) others)
    as (rest & Heq & Hperm & Hdesc); [done|done| |].
  { eapply Forall_impl; [exact Hscores|]. by intros r [? _]. }
  exists others, rest. split_and!; try done.
  by rewrite Hperm.
Qed.

Lemma make_summary_short samp_df alleles th1 th2 th3 mixed s_name :
  (length samp_df < 3)%nat →
  make_summary samp_df alleles th1 th2 th3 mixed s_name = Raise IndexError.
Proof.
  intros Hlen. unfold make_summary, iloc. cbv zeta.
  destruct samp_df as [|r0 [|r1 [|r2 l]]]; simpl in *; try done. lia.
Qed.

(** C2.  In a cohort of fewer than three samples no summary line is
    produced: the turn of every sample raises, [IndexError] from
    [make_summary] unless the scoring has raised before. *)
Theorem small_cohort_summary_raises
    samps tan_threshold mas_q_threshold mas_r_threshold mix_threshold score_amel sq :
  sort_values_contract sort_values →
  (length samps < 3)%nat → sq ∈ samps →
  ∃ e, compare_sample samps tan_threshold mas_q_threshold mas_r_threshold
                      mix_threshold score_amel sq = Raise e ∧
       (e = IndexError ∨ e = ZeroDivisionError).
Proof.
  intros Hsort Hlen Hsq. unfold compare_sample. cbv zeta.
  destruct (comparison_rows samps sq.1 sq.2 score_amel) as [others|e] eqn:Hothers.
  - cbn [mbind result_bind]. rewrite make_summary_short.
    + exists IndexError. split; [done|by left].
    + destruct (Hsort (query_row sq.1 (mixing_check sq.2 mix_threshold) sq.2 :: others))
        as [Hperm _].
      rewrite Hperm. cbn [length].
      destruct (comparison_rows_Ok _ _ _ _ _ Hothers) as [_ Hnames].
      apply (f_equal length) in Hnames. rewrite !length_fmap in Hnames.
      rewrite Hnames.
      pose proof (length_filter_lt (λ sar : string * gmap string string, sar.1 ≠ sq.1)
                    samps sq Hsq) as Hlt.
      unfold lt in *. assert (¬ sq.1 ≠ sq.1) as Hne by (intros Hne; done).
      specialize (Hlt Hne). lia.
  - exists e. split; [done|]. right.
    unfold comparison_rows in Hothers.
    revert Hothers. generalize (filter (λ sar : string * gmap string string, sar.1 ≠ sq.1) samps).
    intros l. induction l as [|sar l IH]; simpl; [done|].
    destruct (score_query sq.2 sar.2 score_amel "AMEL") as [sc|e'] eqn:Hsc.
    + cbn [mbind result_bind].
      destruct (mapM_result _ l) as [ys|e'']; cbn [mbind result_bind]; [done|].
      intros [= ->]. by apply IH.
    + cbn [mbind result_bind]. intros [= ->].
      unfold score_query in Hsc. revert Hsc.
      repeat case_match. unfold py_truediv.
      repeat case_match; cbn [mbind result_bind]; congruence.
Qed.

End ranking.

(** ** A sort that meets the contract *)

Section sorts.
Implicit Types (r : Row Q) (l : list (Row Q)).

Lemma Q_ge_total (x y : Q) : Q_ge x y = false → Q_ge y x = true.
Proof.
  unfold Q_ge. intros Hxy. apply Qle_bool_iff, Qlt_le_weak, Qnot_le_lt.
  intros Hle%Qle_bool_iff. congruence.
Qed.

Lemma insert_desc_Permutation r l : insert_desc r l ≡ₚ r :: l.
Proof.
  induction l as [|r' l IH]; simpl; [done|].
  destruct (col_tanabe_score r), (col_tanabe_score r'); try done.
  case_match; [done|]. rewrite IH. apply Permutation_swap.
Qed.

Lemma insertion_sort_desc_Permutation l : insertion_sort_desc l ≡ₚ l.
Proof.
  induction l as [|r l IH]; simpl; [done|].
  by rewrite insert_desc_Permutation, IH.
Qed.

Lemma insert_desc_HdRel a r l :
  descending a r → HdRel descending a l → HdRel descending a (insert_desc r l).
Proof.
  intros Har Hal. destruct l as [|r' l]; simpl; [by constructor|].
  destruct (col_tanabe_score r), (col_tanabe_score r'); try by constructor.
  case_match; [by constructor|].
  inversion_clear Hal. by constructor.
Qed.

Lemma insert_desc_Sorted r l :
  is_Some (col_tanabe_score r) →
  Forall (λ r, is_Some (col_tanabe_score r)) l →
  Sorted descending l → Sorted descending (insert_desc r l).
Proof.
  intros [x Hx] Hall Hsorted.
  induction l as [|r' l IH]; simpl.
  - repeat constructor.
  - inversion_clear Hall as [|? ? [y Hy] Hl]. inversion_clear Hsorted as [|? ? Hs Hhd].
    rewrite Hx, Hy. destruct (Q_ge x y) eqn:Hxy.
    + constructor; [by constructor|]. constructor. by exists x, y.
    + constructor; [by apply IH|].
      apply insert_desc_HdRel; [|done].
      exists y, x. split_and!; [done..|]. by apply Q_ge_total.
Qed.

Lemma insertion_sort_desc_Sorted l :
  Forall (λ r, is_Some (col_tanabe_score r)) l →
  Sorted descending (insertion_sort_desc l).
Proof.
  induction 1 as [|r l Hr Hl IH]; simpl; [constructor|].
  apply insert_desc_Sorted; [done| |done].
  by rewrite insertion_sort_desc_Permutation.
Qed.

Lemma stable_sort_contract : sort_values_contract (@sort_values Q stable_sort).
Proof.
  intros l. cbn [sort_values stable_sort]. split.
  - rewrite insertion_sort_desc_Permutation. apply filter_app_complement.
  - eexists _, _. split_and!; [done|..].
    + by apply Forall_forall; intros r [? _]%list_elem_of_filter.
    + rewrite insertion_sort_desc_Permutation.
      apply Forall_forall. intros r [Hr _]%list_elem_of_filter.
      by destruct (col_tanabe_score r); [eexists|].
    + apply insertion_sort_desc_Sorted, Forall_forall.
      intros r [Hr _]%list_elem_of_filter.
      by destruct (col_tanabe_score r); [eexists|].
Qed.

End sorts.

(** ** Marker names of the raw rows *)

Section raw_names.
Implicit Types (d : gmap string string) (k : string).

Lemma elem_of_sample_dicts penta_fix tables d :
  d ∈ sample_dicts penta_fix tables ↔
  ∃ t, t ∈ tables ∧ d ∈ table_dicts penta_fix t.
Proof.
  unfold sample_dicts. rewrite list_elem_of_In, in_concat. split.
  - intros (l & Hl & Hd). apply list_elem_of_In, list_elem_of_fmap in Hl as (t & -> & Ht).
    exists t. split; [done|by apply list_elem_of_In].
  - intros (t & Ht & Hd). exists (table_dicts penta_fix t). split.
    + by apply list_elem_of_In, list_elem_of_fmap_2.
    + by apply list_elem_of_In.
Qed.

Lemma group_keys_elem_of rows samp :
  samp ∈ group_keys rows ↔
  ∃ r s, r ∈ rows ∧ w_sample r = Str s ∧ samp = Py.strip s.
Proof.
  unfold group_keys. rewrite sorted_set_elem_of, list_elem_of_omap. split.
  - intros (r & Hr & Hs). destruct (w_sample r) as [|s] eqn:Hw; [done|].
    injection Hs as <-. by exists r, s.
  - intros (r & s & Hr & Hw & ->). exists r. by rewrite Hw.
Qed.

(** The marker keys of the dictionaries of one table, with the Penta
    folding disabled, are the marker names of its rows. *)
Lemma table_dicts_markers t k :
  k ≠ "Sample" →
  (∃ d, d ∈ table_dicts false t ∧ k ∈ dom d) ↔ k ∈ raw_marker_names t.
Proof.
  intros Hk. destruct t as [rows|rows]; simpl.
  - rewrite elem_of_list_to_set, list_elem_of_omap. split.
    + intros (d & Hd & Hdom).
      apply list_elem_of_fmap in Hd as (samp & -> & Hsamp).
      rewrite wide_sample_dict_dom, elem_of_union, elem_of_singleton in Hdom.
      destruct Hdom as [?|Hdom]; [done|].
      apply elem_of_list_to_set, list_elem_of_fmap in Hdom as (r & -> & Hr).
      apply list_elem_of_filter in Hr as [[Hnan _] Hr].
      exists r. split; [done|]. by destruct (w_sample r).
    + intros (r & Hr & Hs). destruct (w_sample r) as [|s] eqn:Hw; [done|].
      injection Hs as <-.
      exists (wide_sample_dict false rows (Py.strip s)). split.
      * apply list_elem_of_fmap_2, group_keys_elem_of. by exists r, s.
      * rewrite wide_sample_dict_dom, elem_of_union. right.
        apply elem_of_list_to_set, list_elem_of_fmap. exists r. split; [done|].
        apply list_elem_of_filter. by rewrite Hw.
  - rewrite elem_of_union_list. split.
    + intros (d & Hd & Hdom).
      apply list_elem_of_fmap in Hd as (r & -> & Hr).
      rewrite long_sample_dict_dom, elem_of_union, elem_of_singleton in Hdom.
      destruct Hdom as [?|Hdom]; [done|].
      exists (dom (l_markers r)). split; [|done].
      by apply (list_elem_of_fmap_2 (λ r, dom (l_markers r))).
    + intros (X & HX & Hdom).
      apply list_elem_of_fmap in HX as (r & -> & Hr).
      exists (long_sample_dict r). split; [by apply list_elem_of_fmap_2|].
      rewrite long_sample_dict_dom, elem_of_union. by right.
Qed.

(** With the Penta folding disabled, the marker names of a canonicalised
    input are the marker names its rows carry, "Sample" apart. *)
Lemma marker_names_raw tables :
  marker_names false tables = ⋃ (raw_marker_names <$> tables) ∖ {["Sample"]}.
Proof.
  apply set_eq. intros k. unfold marker_names, frame_columns.
  rewrite !elem_of_difference, !elem_of_union_list, not_elem_of_singleton.
  split.
  - intros [(X & HX & Hk) Hne].
    apply list_elem_of_fmap in HX as (d & -> & Hd).
    apply elem_of_sample_dicts in Hd as (t & Ht & Hd).
    split; [|done]. exists (raw_marker_names t). split.
    + by apply list_elem_of_fmap_2.
    + apply table_dicts_markers; [done|]. by exists d.
  - intros [(X & HX & Hk) Hne].
    apply list_elem_of_fmap in HX as (t & -> & Ht).
    apply table_dicts_markers in Hk as (d & Hd & Hk); [|done].
    split; [|done]. exists (dom d). split; [|done].
    apply list_elem_of_fmap_2, elem_of_sample_dicts. by exists t.
Qed.

Lemma fold_spelling_dom spaced under canon d :
  dom (penta_rename spaced under canon d) = fold_spelling spaced under canon (dom d).
Proof.
  unfold penta_rename, fold_spelling.
  destruct (d !! spaced) as [v|] eqn:Hs.
  - rewrite decide_True by (apply elem_of_dom; eauto).
    by rewrite dom_insert_L, dom_delete_L.
  - rewrite decide_False by (by apply not_elem_of_dom).
    destruct (d !! under) as [v|] eqn:Hu.
    + rewrite decide_True by (apply elem_of_dom; eauto).
      by rewrite dom_insert_L, dom_delete_L.
    + by rewrite decide_False by (by apply not_elem_of_dom).
Qed.

Lemma penta_fix_dict_dom d : dom (penta_fix_dict d) = penta_fold (dom d).
Proof. unfold penta_fix_dict, penta_fold. by rewrite !fold_spelling_dom. Qed.

Lemma fold_spelling_sample spaced under canon (names : gset string) :
  spaced ≠ "Sample" → under ≠ "Sample" →
  fold_spelling spaced under canon ({["Sample"]} ∪ names)
  = {["Sample"]} ∪ fold_spelling spaced under canon names.
Proof.
  intros Hs Hu. unfold fold_spelling.
  assert (∀ x, x ≠ "Sample" → x ∈ ({["Sample"]} ∪ names : gset string) ↔ x ∈ names) as Hin.
  { intros x Hx. rewrite elem_of_union, elem_of_singleton. tauto. }
  destruct (decide (spaced ∈ names)) as [Hsp|Hsp].
  - rewrite decide_True by (by apply Hin). set_solver.
  - rewrite decide_False by (by rewrite Hin).
    destruct (decide (under ∈ names)) as [Hun|Hun].
    + rewrite decide_True by (by apply Hin). set_solver.
    + by rewrite decide_False by (by rewrite Hin).
Qed.

(** The keys of the dictionary of a wide-layout sample: the sample key
    and the marker names of its rows, folded when the fix is enabled. *)
Lemma wide_sample_dict_dom_folded penta_fix rows samp :
  dom (wide_sample_dict penta_fix rows samp)
  = {["Sample"]} ∪ wide_marker_names penta_fix rows samp.
Proof.
  unfold wide_marker_names. cbv zeta.
  destruct penta_fix; [|apply wide_sample_dict_dom].
  change (wide_sample_dict true rows samp)
    with (penta_fix_dict (wide_sample_dict false rows samp)).
  rewrite penta_fix_dict_dom, wide_sample_dict_dom. unfold penta_fold.
  by rewrite !fold_spelling_sample.
Qed.

(** The marker keys of the dictionaries of one table are the folded
    marker names of its rows. *)
Lemma table_dicts_folded penta_fix t k :
  k ≠ "Sample" →
  (∃ d, d ∈ table_dicts penta_fix t ∧ k ∈ dom d) ↔ k ∈ folded_marker_names penta_fix t.
Proof.
  intros Hk. destruct t as [rows|rows]; cbn [table_dicts folded_marker_names];
    rewrite elem_of_union_list.
  - split.
    + intros (d & Hd & Hdom).
      apply list_elem_of_fmap in Hd as (samp & -> & Hsamp).
      rewrite wide_sample_dict_dom_folded, elem_of_union, elem_of_singleton in Hdom.
      destruct Hdom as [?|Hdom]; [done|].
      exists (wide_marker_names penta_fix rows samp). split; [|done].
      by apply list_elem_of_fmap_2.
    + intros (X & HX & Hdom).
      apply list_elem_of_fmap in HX as (samp & -> & Hsamp).
      exists (wide_sample_dict penta_fix rows samp). split.
      * by apply list_elem_of_fmap_2.
      * rewrite wide_sample_dict_dom_folded, elem_of_union. by right.
  - split.
    + intros (d & Hd & Hdom).
      apply list_elem_of_fmap in Hd as (r & -> & Hr).
      rewrite long_sample_dict_dom, elem_of_union, elem_of_singleton in Hdom.
      destruct Hdom as [?|Hdom]; [done|].
      exists (dom (l_markers r)). split; [|done].
      by apply (list_elem_of_fmap_2 (λ r, dom (l_markers r))).
    + intros (X & HX & Hdom).
      apply list_elem_of_fmap in HX as (r & -> & Hr).
      exists (long_sample_dict r). split; [by apply list_elem_of_fmap_2|].
      rewrite long_sample_dict_dom, elem_of_union. by right.
Qed.

(** The marker names of a canonicalised input are the folded marker
    names of its rows, "Sample" apart. *)
Lemma marker_names_folded penta_fix tables :
  marker_names penta_fix tables
  = ⋃ (folded_marker_names penta_fix <$> tables) ∖ {["Sample"]}.
Proof.
  apply set_eq. intros k. unfold marker_names, frame_columns.
  rewrite !elem_of_difference, !elem_of_union_list, not_elem_of_singleton.
  split.
  - intros [(X & HX & Hk) Hne].
    apply list_elem_of_fmap in HX as (d & -> & Hd).
    apply elem_of_sample_dicts in Hd as (t & Ht & Hd).
    split; [|done]. exists (folded_marker_names penta_fix t). split.
    + by apply list_elem_of_fmap_2.
    + apply table_dicts_folded; [done|]. by exists d.
  - intros [(X & HX & Hk) Hne].
    apply list_elem_of_fmap in HX as (t & -> & Ht).
    apply table_dicts_folded in Hk as (d & Hd & Hk); [|done].
    split; [|done]. exists (dom d). split; [|done].
    apply list_elem_of_fmap_2, elem_of_sample_dicts. by exists t.
Qed.

(** C9, as the code builds the frame.  In every cohort that
    [str_ingress] returns, each record has the same keys: the marker
    names of the input rows after the Penta folding of each wide-layout
    sample, "Sample" apart; with the folding disabled these are the
    marker names of the raw rows.  A marker the sample has no value for
    holds the empty string, and no value repeats a label. *)
Theorem cohort_records_uniform {SR : SeriesRender} tables sample_map penta_fix cohort :
  str_ingress tables sample_map penta_fix = Ok cohort →
  Forall (λ srec : string * gmap string string,
            dom srec.2 = ⋃ (folded_marker_names penta_fix <$> tables) ∖ {["Sample"]} ∧
            map_Forall (λ _ v, NoDup (Py.split "," v)) srec.2) cohort ∧
  Forall2 (λ d (srec : string * gmap string string),
             ∀ m, m ∈ ⋃ (folded_marker_names penta_fix <$> tables) ∖ {["Sample"]} →
                  srec.2 !! m = Some (default "" (d !! m)))
          (sample_dicts penta_fix tables) cohort ∧
  ⋃ (folded_marker_names false <$> tables) ∖ {["Sample"]}
  = ⋃ (raw_marker_names <$> tables) ∖ {["Sample"]}.
Proof.
  intros Hok.
  destruct (ingress_records_uniform _ _ _ _ Hok) as [Hrecords Hfill].
  rewrite <-!marker_names_folded. split_and!; [done|done|].
  apply marker_names_raw.
Qed.

End raw_names.

(** ** The claims on concrete inputs *)

Lemma score_query_zero_total_raises_witness :
  score_query (F:=Q) recA recD false "AMEL" = Raise ZeroDivisionError.
Proof.
  apply (score_query_zero_total_raises recA recD false "AMEL" 0 0 0).
  - vm_compute. reflexivity.
  - left. reflexivity.
Defined.

Lemma score_query_symmetric_witness :
  ∃ sab sba : ScoreResult Q,
    score_query recA recB false "AMEL" = Ok sab ∧
    score_query recB recA false "AMEL" = Ok sba ∧
    tanabe_score sab = tanabe_score sba ∧
    masters_query_score sab = masters_ref_score sba ∧
    masters_ref_score sab = masters_query_score sba.
Proof.
  apply (score_query_symmetric recA recB false "AMEL" 1 2 1).
  - vm_compute. reflexivity.
  - lia.
  - lia.
Defined.

Lemma mixing_check_counts_markers_over_two_witness :
  (mixing_check recMixed 1 = true ↔ 1 < Z.of_nat (markers_over_two recMixed)) ∧
  (Z.of_nat (markers_over_two recMixed) = 1 + 1 → mixing_check recMixed 1 = true) ∧
  (Z.of_nat (markers_over_two recMixed) = 1 → mixing_check recMixed 1 = false).
Proof.
  apply (mixing_check_counts_markers_over_two recMixed 1).
  apply (bool_decide_unpack _). vm_compute. exact I.
Defined.

Lemma mixing_check_empty_and_small_witness :
  mixing_check recA 0 = mixing_check (delete "M2" recA) 0 ∧
  mixing_check recA 0 = false.
Proof.
  destruct mixing_check_empty_and_small as (_ & Hempty & Hsmall). split.
  - apply (Hempty recA "M2" 0). vm_compute. reflexivity.
  - apply (Hsmall recA 0); [lia|].
    apply (bool_decide_unpack _). vm_compute. exact I.
Defined.

Lemma cohort_records_uniform_witness :
  ∃ cohort,
    str_ingress (SR:=newline_render) [Wide wide_rows; Long long_rows] None true = Ok cohort ∧
    Forall (λ srec : string * gmap string string,
              dom srec.2
              = ⋃ (folded_marker_names true <$> [Wide wide_rows; Long long_rows])
                  ∖ {["Sample"]} ∧
              map_Forall (λ _ v, NoDup (Py.split "," v)) srec.2) cohort ∧
    Forall2 (λ d (srec : string * gmap string string),
               ∀ m, m ∈ ⋃ (folded_marker_names true <$> [Wide wide_rows; Long long_rows])
                          ∖ {["Sample"]} →
                    srec.2 !! m = Some (default "" (d !! m)))
            (sample_dicts true [Wide wide_rows; Long long_rows]) cohort ∧
    ⋃ (folded_marker_names false <$> [Wide wide_rows; Long long_rows]) ∖ {["Sample"]}
    = ⋃ (raw_marker_names <$> [Wide wide_rows; Long long_rows]) ∖ {["Sample"]}.
Proof.
  eexists. split.
  - vm_compute. reflexivity.
  - apply (cohort_records_uniform (SR:=newline_render)
             [Wide wide_rows; Long long_rows] None true).
    vm_compute. reflexivity.
Defined.

Lemma sample_map_rekeys_records_witness :
  str_ingress (SR:=newline_render) [Wide wide_rows; Long long_rows]
              (Some [("S001", "LineageX")]) true
  = (cohort ← str_ingress (SR:=newline_render) [Wide wide_rows; Long long_rows] None true;
     if decide (NoDup (renamed [("S001", "LineageX")] <$> cohort.*1))
     then Ok (prod_map (renamed [("S001", "LineageX")]) id <$> cohort)
     else Raise ValueError).
Proof.
  apply (sample_map_rekeys_records (SR:=newline_render)
           [Wide wide_rows; Long long_rows] [("S001", "LineageX")] true).
  - intros new _. reflexivity.
  - apply (bool_decide_unpack _). vm_compute. exact I.
  - simpl. split; [apply not_elem_of_nil|exact I].
Defined.

Lemma penta_fix_wide_moves_alias_witness :
  wide_sample_dict true wide_rows "S001" !! "PentaD" = Some "11,12" ∧
  wide_sample_dict true wide_rows "S001" !! "Penta D" = None.
Proof.
  apply (proj1 (penta_fix_wide_moves_alias wide_rows "S001") "11,12").
  vm_compute. reflexivity.
Defined.

Lemma ranked_frame_witness :
  ∃ full_samp_out,
    sample_frame (FS:=stable_sort) cohort3 3 false ("A", recA) = Ok full_samp_out ∧
    ∃ others rest,
      comparison_rows cohort3 "A" recA false = Ok others ∧
      col_Sample <$> others = (filter (λ sar, sar.1 ≠ "A") cohort3).*1 ∧
      full_samp_out = query_row "A" (mixing_check recA 3) recA :: rest ∧
      rest ≡ₚ others ∧
      Sorted descending rest ∧
      Forall (λ r, is_Some (col_tanabe_score r) ∧ col_query_sample r = false) rest.
Proof.
  eexists. split.
  - vm_compute. reflexivity.
  - eapply (ranked_frame_self_first_then_descending (FS:=stable_sort)
              cohort3 3 false "A" recA).
    + apply stable_sort_contract.
    + apply (bool_decide_unpack _). vm_compute. exact I.
    + vm_compute. reflexivity.
Defined.

Lemma small_cohort_summary_raises_witness :
  ∃ e, compare_sample (FS:=stable_sort) cohort2 80%Q 80%Q 80%Q 3 false ("A", recA)
       = Raise e ∧ (e = IndexError ∨ e = ZeroDivisionError).
Proof.
  apply (small_cohort_summary_raises (FS:=stable_sort)
           cohort2 80%Q 80%Q 80%Q 3 false ("A", recA)).
  - apply stable_sort_contract.
  - simpl. lia.
  - apply elem_of_cons. left. reflexivity.
Defined.

(** ** Inputs on which the specification and the code differ *)

(** C1: a query whose markers are all empty shares no marker with any
    reference; the three totals are zero and the scorer raises. *)
Lemma score_query_no_shared_marker_raises :
  allele_totals recEmpty recB false "AMEL" = (0, 0, 0) ∧
  score_query (F:=Q) recEmpty recB false "AMEL" = Raise ZeroDivisionError.
Proof. by vm_compute. Qed.

(** C2: in a cohort of two samples, and in a cohort of one, the turn of
    a sample ends in [IndexError] and no summary line is produced. *)
Lemma two_sample_cohort_raises_IndexError :
  compare_sample (FS:=stable_sort) cohort2 80%Q 80%Q 80%Q 3 false ("B", recB)
    = Raise IndexError ∧
  compare_sample (FS:=stable_sort) [("A", recA)] 80%Q 80%Q 80%Q 3 false ("A", recA)
    = Raise IndexError.
Proof. by vm_compute. Qed.

(** C3: twenty-five samples with the same record, in the order "S00"
    to "S24".  Against "S00" the other twenty-four tie at the score 100
    (the quotient 400/4), and the frame written for "S00" does not list them in the order of
    the cohort: the quicksort that the call runs by default moves tied
    rows.  In a cohort of three the same sort leaves the tie of "B" and
    "C" in place. *)
Lemma ranked_frame_ties_not_in_cohort_order :
  cohort25.*1 = names25 ∧
  (∃ full_samp_out,
     sample_frame (FS:=pandas_sort) cohort25 3 false ("S00", recT) = Ok full_samp_out ∧
     col_tanabe_score <$> full_samp_out = None :: replicate 24 (Some (400 # 4)%Q) ∧
     col_Sample <$> full_samp_out ≠ names25) ∧
  (∃ full_samp_out,
     sample_frame (FS:=pandas_sort) cohort3 3 false ("A", recA) = Ok full_samp_out ∧
     col_Sample <$> full_samp_out = ["A"; "B"; "C"]).
Proof.
  split_and!.
  - by vm_compute.
  - eexists. split_and!; [vm_compute; reflexivity|by vm_compute|].
    apply (bool_decide_unpack _). by vm_compute.
  - eexists. split; [vm_compute; reflexivity|by vm_compute].
Qed.

(** C9: the only row of the input names the marker "Penta D"; with the
    fix enabled, as it is by default, the record of the sample has the
    key "PentaD" and no key "Penta D". *)
Lemma penta_key_is_not_a_row_name :
  ⋃ (raw_marker_names <$> [Wide penta_d_rows]) = {["Penta D"]} ∧
  ∃ rec,
    str_ingress (SR:=newline_render) [Wide penta_d_rows] None true = Ok [("S1", rec)] ∧
    rec = {[ "PentaD" := "11" ]} ∧
    dom rec ≠ ⋃ (raw_marker_names <$> [Wide penta_d_rows]).
Proof.
  split; [by vm_compute|].
  eexists. split_and!; [vm_compute; reflexivity|by vm_compute|].
  apply (bool_decide_unpack _). by vm_compute.
Qed.

(** C5: a sample with "9" under "PentaD" and "11" under "Penta D" ends
    with "11" under "PentaD": the alias wins over the canonical key. *)
Lemma penta_alias_overwrites_canonical :
  wide_sample_dict false penta_both_rows "S1" !! "PentaD" = Some "9" ∧
  wide_sample_dict false penta_both_rows "S1" !! "Penta D" = Some "11" ∧
  str_ingress (SR:=newline_render) [Wide penta_both_rows] None true
  = Ok [("S1", {[ "PentaD" := "11" ]})].
Proof. by vm_compute. Qed.

(** C8: the record keyed "A" is not given "B", the new name of its row,
    but "C": the second row renames it again. *)
Lemma chained_rename_rekeys_twice :
  renamed chained_map "A" = "B" ∧
  NoDup chained_map.*1 ∧
  str_ingress (SR:=newline_render) [Long sample_A] (Some chained_map) true
  = Ok [("C", {[ "M1" := "9" ]})].
Proof.
  split_and!; [by vm_compute| |by vm_compute].
  apply (bool_decide_unpack _). by vm_compute.
Qed.

(** C4.  The code strips every trailing "0" and "." of a label, not the
    suffix ".0": a label that ends in "0" is never kept, "10" becomes
    "1" and "200" becomes "2", in both layouts. *)
Theorem trailing_zero_digits_are_stripped :
  (∀ label, Py.rstrip ["."; "0"]%char (label +:+ "0") ≠ label +:+ "0") ∧
  _clean_element "10" = "1" ∧
  _clean_element "200" = "2" ∧
  collapse_alleles [Str "10"; Str "200"] = "1,2" ∧
  str_ingress (SR:=newline_render) [Long sample_tens] None true
  = Ok [("S", {[ "M1" := "1,2" ]})].
Proof.
  split_and!; try by vm_compute.
  intros label Heq. apply (f_equal String.length) in Heq.
  rewrite rstrip_app_mem in Heq by done.
  pose proof (rstrip_length ["."; "0"]%char label) as Hlen.
  rewrite string_length_app in Heq. simpl in Heq. lia.
Qed.

(** * Further properties of the code *)

(** ** The scorer: when it succeeds and what it counts *)

Section scorer_counts.
Context {F : Type} {PF : PyFloat F}.
Implicit Types (query reference : gmap string string) (m : string).

Lemma allele_lists_dom query : dom (allele_lists query) = called_markers query.
Proof. unfold allele_lists, called_markers. by rewrite dom_fmap_L. Qed.

Lemma allele_lists_lookup query m (S : gset string) :
  allele_lists query !! m = Some S →
  ∃ v, query !! m = Some v ∧ v ≠ "" ∧ S = list_to_set (Py.split "," v).
Proof.
  unfold allele_lists. rewrite lookup_fmap_Some.
  intros (v & <- & [Hv Hne]%map_lookup_filter_Some). by exists v.
Qed.

Lemma allele_lists_nonempty query m :
  m ∈ dom (allele_lists query) → allele_lists query !!! m ≠ (∅ : gset string).
Proof.
  intros [S HS]%elem_of_dom. rewrite (lookup_total_correct _ _ _ HS).
  apply allele_lists_lookup in HS as (v & _ & _ & ->).
  destruct (Py.split "," v) as [|x l] eqn:Hs; [by destruct (split_not_nil ","%char v)|].
  rewrite list_to_set_cons. set_solver.
Qed.

Lemma gset_size_pos (S : gset string) : S ≠ ∅ → (1 ≤ size S)%nat.
Proof.
  intros HS. destruct (size S) eqn:Hsize; [|lia].
  by apply size_empty_iff, leibniz_equiv in Hsize.
Qed.

(** What the counting loop adds, marker by marker. *)
Lemma fold_count_bounds (q r : gmap string (gset string)) l a b c x y z :
  (∀ m, m ∈ l → q !!! m ≠ (∅ : gset string) ∧ r !!! m ≠ (∅ : gset string)) →
  fold_left (count_marker q r) l (a, b, c) = (x, y, z) →
  a + Z.of_nat (length l) ≤ x ∧ b + Z.of_nat (length l) ≤ y ∧
  c ≤ z ∧ z - c ≤ x - a ∧ z - c ≤ y - b.
Proof.
  revert a b c. induction l as [|m l IH]; intros a b c Hne; cbn [fold_left].
  - intros [= <- <- <-]. simpl. lia.
  - unfold count_marker at 2. intros Hfold.
    apply IH in Hfold; [|intros m' Hm'; apply Hne, elem_of_cons; by right].
    destruct (Hne m) as [Hq Hr]; [apply elem_of_cons; by left|].
    apply gset_size_pos in Hq, Hr.
    pose proof (subseteq_size (r !!! m ∩ q !!! m) (r !!! m)) as H1.
    pose proof (subseteq_size (r !!! m ∩ q !!! m) (q !!! m)) as H2.
    cbn [length]. specialize (H1 ltac:(set_solver)). specialize (H2 ltac:(set_solver)).
    lia.
Qed.

Lemma allele_totals_bounds query reference use_amel amel_col n_r n_q n_s :
  allele_totals query reference use_amel amel_col = (n_r, n_q, n_s) →
  let n := Z.of_nat (size (shared_markers (allele_lists query) (allele_lists reference)
                             use_amel amel_col)) in
  n ≤ n_r ∧ n ≤ n_q ∧ 0 ≤ n_s ∧ n_s ≤ n_r ∧ n_s ≤ n_q.
Proof.
  unfold allele_totals, count_alleles. intros Hfold. cbv zeta.
  apply fold_count_bounds in Hfold.
  - unfold size, set_size. simpl. lia.
  - intros m Hm%elem_of_elements. unfold shared_markers in Hm.
    assert (m ∈ dom (allele_lists query) ∩ dom (allele_lists reference)) as Hdom
      by (destruct use_amel; set_solver).
    apply elem_of_intersection in Hdom as [Hq Hr].
    split; by apply allele_lists_nonempty.
Qed.

(** X1.  [score_query] fails only by [ZeroDivisionError], and exactly
    when the two records share no called marker (the amelogenin column
    set aside unless [use_amel]); otherwise it returns a score. *)
Theorem score_query_raises_iff_no_shared_marker query reference use_amel amel_col :
  let markers := shared_markers (allele_lists query) (allele_lists reference)
                   use_amel amel_col in
  (score_query (F:=F) query reference use_amel amel_col = Raise ZeroDivisionError
   ↔ markers = ∅) ∧
  (markers ≠ ∅ → ∃ sc, score_query (F:=F) query reference use_amel amel_col = Ok sc) ∧
  (∀ e, score_query (F:=F) query reference use_amel amel_col = Raise e →
        e = ZeroDivisionError).
Proof.
  intros markers.
  destruct (allele_totals query reference use_amel amel_col) as [[n_r n_q] n_s] eqn:Htot.
  pose proof (allele_totals_bounds _ _ _ _ _ _ _ Htot) as Hb. cbv zeta in Hb.
  fold markers in Hb.
  rewrite (score_query_unfold _ _ _ _ _ _ _ Htot).
  destruct (decide (markers = ∅)) as [Hempty|Hne].
  - assert (n_r = 0 ∧ n_q = 0) as [-> ->].
    { unfold allele_totals, count_alleles in Htot. fold markers in Htot.
      rewrite Hempty, elements_empty in Htot. simpl in Htot. by injection Htot as <- <- <-. }
    rewrite py_truediv_zero. cbn [mbind result_bind].
    split_and!; [done|done|]. by intros e [= <-].
  - assert (1 ≤ Z.of_nat (size markers)).
    { apply gset_size_pos in Hne. lia. }
    rewrite !py_truediv_nonzero by lia. cbn [mbind result_bind].
    split_and!; [|by eexists|done]. split; [done|]. intros ?. done.
Qed.

(** X2.  In a returned score the shared alleles are at most the query
    alleles and at most the reference alleles, and every shared marker
    contributes at least one allele to each total, so none of the three
    ratios exceeds one. *)
Theorem score_query_counts_bounded query reference use_amel amel_col (sc : ScoreResult F) :
  score_query query reference use_amel amel_col = Ok sc →
  1 ≤ n_shared_markers sc ∧
  n_shared_markers sc ≤ n_query_alleles sc ∧
  n_shared_markers sc ≤ n_reference_alleles sc ∧
  0 ≤ n_shared_alleles sc ∧
  n_shared_alleles sc ≤ n_query_alleles sc ∧
  n_shared_alleles sc ≤ n_reference_alleles sc ∧
  2 * n_shared_alleles sc ≤ n_query_alleles sc + n_reference_alleles sc ∧
  query_sample sc = false.
Proof.
  destruct (allele_totals query reference use_amel amel_col) as [[n_r n_q] n_s] eqn:Htot.
  pose proof (allele_totals_bounds _ _ _ _ _ _ _ Htot) as Hb. cbv zeta in Hb.
  rewrite (score_query_unfold _ _ _ _ _ _ _ Htot). unfold py_truediv.
  destruct (Z.eqb_spec (n_q + n_r) 0); [done|].
  destruct (Z.eqb_spec n_q 0); [done|]. destruct (Z.eqb_spec n_r 0); [done|].
  cbn [mbind result_bind]. intros [= <-]. simpl.
  assert (shared_markers (allele_lists query) (allele_lists reference) use_amel amel_col
          ≠ ∅) as Hne%gset_size_pos.
  { intros Hempty. unfold allele_totals, count_alleles in Htot.
    rewrite Hempty, elements_empty in Htot. simpl in Htot. congruence. }
  lia.
Qed.

Lemma fold_count_self (q : gmap string (gset string)) l a x y z :
  fold_left (count_marker q q) l (a, a, a) = (x, y, z) → x = z ∧ y = z.
Proof.
  revert a. induction l as [|m l IH]; intros a; cbn [fold_left].
  - by intros [= <- <- <-].
  - unfold count_marker at 2. rewrite (idemp_L (∩) (q !!! m)). apply IH.
Qed.

(** X3.  A record scored against itself: the three allele counts
    coincide, the shared markers are its called markers (amelogenin
    apart unless [use_amel]) and the two Masters scores are equal. *)
Theorem score_query_self query use_amel amel_col (sc : ScoreResult F) :
  score_query query query use_amel amel_col = Ok sc →
  n_shared_alleles sc = n_query_alleles sc ∧
  n_query_alleles sc = n_reference_alleles sc ∧
  n_shared_markers sc
    = Z.of_nat (size (if use_amel then called_markers query
                      else called_markers query ∖ {[amel_col]})) ∧
  tanabe_score sc
    = int_mul 100 (truediv (2 * n_shared_alleles sc)
                           (n_shared_alleles sc + n_shared_alleles sc)) ∧
  masters_query_score sc = masters_ref_score sc.
Proof.
  destruct (allele_totals query query use_amel amel_col) as [[n_r n_q] n_s] eqn:Htot.
  assert (n_r = n_s ∧ n_q = n_s) as [-> ->].
  { unfold allele_totals, count_alleles in Htot.
    by apply fold_count_self in Htot. }
  rewrite (score_query_unfold _ _ _ _ _ _ _ Htot). unfold py_truediv.
  destruct (Z.eqb_spec (n_s + n_s) 0); [done|]. destruct (Z.eqb_spec n_s 0); [done|].
  cbn [mbind result_bind]. intros [= <-]. simpl. split_and!; try done.
  unfold shared_markers. rewrite allele_lists_dom.
  by rewrite (idemp_L (∩) (called_markers query)).
Qed.

End scorer_counts.

(** ** The scorer: which markers matter *)

Section scorer_markers.
Context {F : Type} {PF : PyFloat F}.
Implicit Types (query reference : gmap string string) (m : string).

Lemma allele_lists_delete query m :
  allele_lists (delete m query) = delete m (allele_lists query).
Proof. unfold allele_lists. by rewrite map_filter_delete, fmap_delete. Qed.

Lemma allele_lists_insert_empty query m :
  allele_lists (<[m := ""]> query) = allele_lists (delete m query).
Proof.
  unfold allele_lists. rewrite map_filter_insert_False; [done|]. simpl. by intros ?.
Qed.

Lemma fold_count_ext (q1 r1 q2 r2 : gmap string (gset string)) l acc :
  (∀ m, m ∈ l → q1 !!! m = q2 !!! m ∧ r1 !!! m = r2 !!! m) →
  fold_left (count_marker q1 r1) l acc = fold_left (count_marker q2 r2) l acc.
Proof.
  revert acc. induction l as [|m l IH]; intros acc Hl; cbn [fold_left]; [done|].
  destruct (Hl m) as [Hq Hr]; [apply elem_of_cons; by left|].
  rewrite IH by (intros m' Hm'; apply Hl, elem_of_cons; by right).
  f_equal. unfold count_marker. destruct acc as [[a b] c]. by rewrite Hq, Hr.
Qed.

(** Two calls with the same shared markers and the same allele sets on
    them return the same. *)
Lemma score_query_ext query1 reference1 use_amel1 amel_col1
    query2 reference2 use_amel2 amel_col2 :
  shared_markers (allele_lists query1) (allele_lists reference1) use_amel1 amel_col1
  = shared_markers (allele_lists query2) (allele_lists reference2) use_amel2 amel_col2 →
  (∀ m, m ∈ shared_markers (allele_lists query1) (allele_lists reference1)
              use_amel1 amel_col1 →
        allele_lists query1 !!! m = allele_lists query2 !!! m ∧
        allele_lists reference1 !!! m = allele_lists reference2 !!! m) →
  score_query (F:=F) query1 reference1 use_amel1 amel_col1
  = score_query query2 reference2 use_amel2 amel_col2.
Proof.
  intros Hmarkers Hsets. unfold score_query. cbv zeta.
  rewrite <-Hmarkers. unfold count_alleles.
  rewrite (fold_count_ext (allele_lists query1) (allele_lists reference1)
             (allele_lists query2) (allele_lists reference2)); [done|].
  intros m Hm%elem_of_elements. by apply Hsets.
Qed.

(** X4.  Scoring with the amelogenin column excluded is scoring, with it
    included, the two records from which that column has been deleted;
    and when it is included the name of the column plays no part. *)
Theorem score_query_without_amel query reference amel_col amel_col' :
  score_query (F:=F) query reference false amel_col
  = score_query (delete amel_col query) (delete amel_col reference) true amel_col'.
Proof.
  apply score_query_ext.
  - unfold shared_markers. rewrite !allele_lists_delete, !dom_delete_L. set_solver.
  - intros m Hm. unfold shared_markers in Hm.
    assert (m ≠ amel_col) by set_solver.
    by rewrite !allele_lists_delete, !lookup_total_delete_ne.
Qed.

(** X5.  A marker that holds the empty string counts as a marker the
    record does not have, on the query side and on the reference side. *)
Theorem score_query_empty_value_is_absent query reference use_amel amel_col m :
  score_query (F:=F) (<[m := ""]> query) reference use_amel amel_col
  = score_query (delete m query) reference use_amel amel_col ∧
  score_query (F:=F) query (<[m := ""]> reference) use_amel amel_col
  = score_query query (delete m reference) use_amel amel_col.
Proof.
  unfold score_query. cbv zeta. by rewrite !allele_lists_insert_empty.
Qed.

(** X6.  A marker for which the reference holds no call has no effect:
    the query scores the same with and without it. *)
Theorem score_query_unshared_marker_irrelevant query reference use_amel amel_col m :
  m ∉ called_markers reference →
  score_query (F:=F) (delete m query) reference use_amel amel_col
  = score_query query reference use_amel amel_col.
Proof.
  rewrite <-allele_lists_dom. intros Hm. apply score_query_ext.
  - unfold shared_markers. rewrite allele_lists_delete, dom_delete_L.
    destruct use_amel; set_solver.
  - intros m' Hm'. unfold shared_markers in Hm'.
    rewrite allele_lists_delete, dom_delete_L in Hm'.
    assert (m' ≠ m) by (destruct use_amel; set_solver).
    by rewrite allele_lists_delete, lookup_total_delete_ne.
Qed.

End scorer_markers.

Lemma score_query_counts_bounded_witness :
  ∃ sc : ScoreResult Q,
    score_query recA recB false "AMEL" = Ok sc ∧
    1 ≤ n_shared_markers sc ∧
    n_shared_markers sc ≤ n_query_alleles sc ∧
    n_shared_markers sc ≤ n_reference_alleles sc ∧
    0 ≤ n_shared_alleles sc ∧
    n_shared_alleles sc ≤ n_query_alleles sc ∧
    n_shared_alleles sc ≤ n_reference_alleles sc ∧
    2 * n_shared_alleles sc ≤ n_query_alleles sc + n_reference_alleles sc ∧
    query_sample sc = false.
Proof.
  eexists. split.
  - vm_compute. reflexivity.
  - apply (score_query_counts_bounded recA recB false "AMEL"). vm_compute. reflexivity.
Defined.

Lemma score_query_self_witness :
  ∃ sc : ScoreResult Q,
    score_query recB recB false "AMEL" = Ok sc ∧
    n_shared_alleles sc = n_query_alleles sc ∧
    n_query_alleles sc = n_reference_alleles sc ∧
    n_shared_markers sc = Z.of_nat (size (called_markers recB ∖ {["AMEL"]})) ∧
    tanabe_score sc
      = int_mul 100 (truediv (2 * n_shared_alleles sc)
                             (n_shared_alleles sc + n_shared_alleles sc)) ∧
    masters_query_score sc = masters_ref_score sc.
Proof.
  eexists. split.
  - vm_compute. reflexivity.
  - apply (score_query_self recB false "AMEL"). vm_compute. reflexivity.
Defined.

Lemma score_query_unshared_marker_irrelevant_witness :
  score_query (F:=Q) (delete "M2" recB) recA false "AMEL"
  = score_query recB recA false "AMEL".
Proof.
  apply (score_query_unshared_marker_irrelevant recB recA false "AMEL" "M2").
  apply (bool_decide_unpack _). vm_compute. exact I.
Defined.

Lemma score_query_raises_iff_no_shared_marker_witness :
  ∃ sc, score_query (F:=Q) recA recB false "AMEL" = Ok sc.
Proof.
  apply (proj1 (proj2 (score_query_raises_iff_no_shared_marker (F:=Q)
                         recA recB false "AMEL"))).
  apply (bool_decide_unpack _). vm_compute. exact I.
Defined.

(** ** The mixing detector: thresholds and single markers *)

Section mixing_thresholds.
Implicit Types (alleles : gmap string string) (t : Z).

Lemma fields_over_two_le_size alleles : (fields_over_two alleles ≤ size alleles)%nat.
Proof. unfold fields_over_two. apply map_size_filter. Qed.

Lemma fields_over_two_insert alleles m v :
  alleles !! m = None →
  fields_over_two (<[m := v]> alleles)
  = if decide (2 < length (Py.split "," v))%nat
    then S (fields_over_two alleles) else fields_over_two alleles.
Proof.
  intros Hm. unfold fields_over_two. rewrite map_filter_insert. simpl.
  case_decide.
  - rewrite map_size_insert_None; [done|]. rewrite map_lookup_filter_None. by left.
  - by rewrite delete_id.
Qed.

(** X7.  A negative threshold flags every record, the empty one
    included; a threshold that is at least the number of markers flags
    none; and a record flagged at one threshold is flagged at every
    lower one. *)
Theorem mixing_check_thresholds alleles t :
  (t < 0 → mixing_check alleles t = true) ∧
  (Z.of_nat (size alleles) ≤ t → mixing_check alleles t = false) ∧
  (∀ t', t' ≤ t → mixing_check alleles t = true → mixing_check alleles t' = true).
Proof.
  pose proof (fields_over_two_le_size alleles). split_and!.
  - intros Ht. apply mixing_check_true. lia.
  - intros Ht. apply mixing_check_false. lia.
  - intros t' Hle Hmixed%mixing_check_true. apply mixing_check_true. lia.
Qed.

(** X8.  Adding a marker to a record: if its value has more than two
    comma-separated fields the record is flagged as the old record was
    at the threshold one lower, otherwise as the old record was at the
    same threshold.  The fields are counted as written, a repeated label
    counting each time. *)
Theorem mixing_check_insert alleles m v t :
  alleles !! m = None →
  mixing_check (<[m := v]> alleles) t
  = if decide (2 < length (Py.split "," v))%nat
    then mixing_check alleles (t - 1) else mixing_check alleles t.
Proof.
  intros Hm. apply eq_true_iff_eq. case_decide as Hv.
  - rewrite !mixing_check_true, fields_over_two_insert, decide_True by done. lia.
  - rewrite !mixing_check_true, fields_over_two_insert, decide_False by done. lia.
Qed.

End mixing_thresholds.

Lemma mixing_check_thresholds_witness :
  mixing_check recMixed (-1) = true ∧
  mixing_check recMixed 4 = false ∧
  mixing_check recMixed 0 = true.
Proof.
  destruct (mixing_check_thresholds recMixed (-1)) as (Hneg & _ & _).
  destruct (mixing_check_thresholds recMixed 4) as (_ & Hbig & _).
  destruct (mixing_check_thresholds recMixed 1) as (_ & _ & Hmono).
  split_and!.
  - apply Hneg. lia.
  - apply Hbig. vm_compute. discriminate.
  - apply (Hmono 0); [lia|]. vm_compute. reflexivity.
Defined.

Lemma mixing_check_insert_witness :
  mixing_check (<["M9" := "7,7,7"]> recA) 0
  = if decide (2 < length (Py.split "," "7,7,7"))%nat
    then mixing_check recA (0 - 1) else mixing_check recA 0.
Proof.
  apply (mixing_check_insert recA "M9" "7,7,7" 0). vm_compute. reflexivity.
Defined.

(** ** Cleaning of allele values *)

Section cleaning.
Implicit Types (s v x : string) (l : list string).

Lemma rstrip_idemp chars s : Py.rstrip chars (Py.rstrip chars s) = Py.rstrip chars s.
Proof.
  induction s as [|c s IH]; simpl; [done|].
  destruct (Py.rstrip chars s) as [|b r] eqn:Hr.
  - destruct (Py.mem c chars) eqn:Hc; simpl; [done|]. by rewrite Hc.
  - change (Py.rstrip chars (String c (String b r))) with
      (match Py.rstrip chars (String b r) with
       | EmptyString => if Py.mem c chars then EmptyString else String c EmptyString
       | r' => String c r'
       end).
    by rewrite IH.
Qed.

Lemma join_split sep s : Py.join (String sep "") (Py.split sep s) = s.
Proof.
  induction s as [|c s IH]; simpl; [done|].
  case_decide as Hc.
  - subst c. destruct (Py.split sep s) as [|h t] eqn:Hs;
      [by destruct (split_not_nil sep s)|].
    change (Py.join (String sep "") ("" :: h :: t))
      with ("" +:+ String sep (Py.join (String sep "") (h :: t))).
    by rewrite IH.
  - destruct (Py.split sep s) as [|h t] eqn:Hs;
      [by destruct (split_not_nil sep s)|].
    rewrite <-IH. destruct t as [|h' t]; [done|].
    change (Py.join (String sep "") (String c h :: h' :: t))
      with (String c h +:+ String sep (Py.join (String sep "") (h' :: t))).
    done.
Qed.

Lemma fromkeys_NoDup_id seen l :
  NoDup l → (∀ x, x ∈ l → x ∉ seen) → Py.fromkeys seen l = l.
Proof.
  revert seen. induction l as [|y l IH]; intros seen Hnd Hseen; simpl; [done|].
  apply NoDup_cons in Hnd as [Hy Hnd].
  rewrite bool_decide_eq_false_2 by (apply Hseen, elem_of_cons; by left).
  f_equal. apply IH; [done|]. intros x Hx. rewrite not_elem_of_cons. split.
  - intros ->. done.
  - apply Hseen, elem_of_cons. by right.
Qed.

(** X9.  Removing duplicates from a wide-layout value keeps exactly the
    labels of the value, leaves a value without repeated labels as it
    is, and does nothing when applied a second time. *)
Theorem remove_duplicates_keeps_labels v :
  (∀ e, e ∈ Py.split "," (remove_duplicates v) ↔ e ∈ Py.split "," v) ∧
  (NoDup (Py.split "," v) → remove_duplicates v = v) ∧
  remove_duplicates (remove_duplicates v) = remove_duplicates v.
Proof.
  assert (Py.split "," (remove_duplicates v) = Py.fromkeys [] (Py.split "," v)) as Hsplit.
  { unfold remove_duplicates. change ","%string with (String ","%char "").
    rewrite split_join; [done|apply fromkeys_not_nil, split_not_nil|].
    apply Forall_forall. intros p Hp. apply (proj1 (fromkeys_elem_of _ _)) in Hp.
    pose proof (split_pieces ","%char v) as Hall.
    rewrite Forall_forall in Hall. by apply Hall. }
  assert (∀ w, NoDup (Py.split "," w) → remove_duplicates w = w) as Hid.
  { intros w Hw. unfold remove_duplicates.
    rewrite fromkeys_NoDup_id; [|done|intros ? _; apply not_elem_of_nil].
    change ","%string with (String ","%char ""). apply join_split. }
  split_and!.
  - intros e. rewrite Hsplit. apply fromkeys_elem_of.
  - apply Hid.
  - apply Hid, remove_duplicates_NoDup.
Qed.

Lemma clean_element_split x :
  Py.split "," (_clean_element x) = Py.sorted_set (cleaned_labels x).
Proof.
  unfold _clean_element, cleaned_labels.
  change ","%string with (String ","%char "").
  rewrite split_join; [done| |].
  - apply sorted_set_not_nil. destruct (Py.split "," x) eqn:Hs; [|done].
    by destruct (split_not_nil ","%char x).
  - apply Forall_forall. intros p Hp.
    apply (proj1 (sorted_set_elem_of _ _)) in Hp.
    apply list_elem_of_fmap in Hp as (piece & -> & Hpiece).
    intros Hc%rstrip_chars%strip_chars_chars.
    pose proof (split_pieces ","%char x) as Hall.
    rewrite Forall_forall in Hall. by apply (Hall piece).
Qed.

(** X10.  The labels of a long-layout value after [_clean_element] are
    the cleaned labels of the input, each once, in lexicographic order,
    and none of them ends in "0" or ".". *)
Theorem clean_element_sorted_labels x :
  (∀ e, e ∈ Py.split "," (_clean_element x) ↔ e ∈ cleaned_labels x) ∧
  NoDup (Py.split "," (_clean_element x)) ∧
  Sorted String.le (Py.split "," (_clean_element x)) ∧
  Forall (λ e, Py.rstrip ["."; "0"]%char e = e) (Py.split "," (_clean_element x)).
Proof.
  rewrite clean_element_split. split_and!.
  - intros e. apply sorted_set_elem_of.
  - apply sorted_set_NoDup.
  - unfold Py.sorted_set. apply Sorted_merge_sort, _.
  - apply Forall_forall. intros e He.
    apply (proj1 (sorted_set_elem_of _ _)) in He.
    apply list_elem_of_fmap in He as (piece & -> & _). apply rstrip_idemp.
Qed.

(** X11.  [_clean_element] depends only on the set of cleaned labels:
    two values with the same cleaned labels, in any order and however
    often repeated, are cleaned to the same string. *)
Theorem clean_element_order_irrelevant x y :
  (∀ e, e ∈ cleaned_labels x ↔ e ∈ cleaned_labels y) →
  _clean_element x = _clean_element y.
Proof.
  intros Hsame. unfold _clean_element. fold (cleaned_labels x) (cleaned_labels y).
  f_equal. unfold Py.sorted_set.
  apply (Sorted_unique String.le).
  - apply Sorted_merge_sort, _.
  - apply Sorted_merge_sort, _.
  - rewrite !merge_sort_Permutation.
    apply NoDup_Permutation; [apply fromkeys_NoDup..|].
    intros e. by rewrite !fromkeys_elem_of.
Qed.

End cleaning.

Lemma remove_duplicates_keeps_labels_witness : remove_duplicates "9,10" = "9,10".
Proof.
  apply (proj1 (proj2 (remove_duplicates_keeps_labels "9,10"))).
  apply (bool_decide_unpack _). vm_compute. exact I.
Defined.

Lemma clean_element_order_irrelevant_witness :
  _clean_element "9, 11.0,9" = _clean_element "11,9".
Proof.
  apply (clean_element_order_irrelevant "9, 11.0,9" "11,9").
  assert (cleaned_labels "9, 11.0,9" = ["9"; "11"; "9"]) as -> by (vm_compute; reflexivity).
  assert (cleaned_labels "11,9" = ["11"; "9"]) as -> by (vm_compute; reflexivity).
  intros e. rewrite !elem_of_cons, !elem_of_nil. tauto.
Defined.

(** ** The ingress: errors, keys and rows *)

Section ingress_more.
Context {SR : SeriesRender}.
Implicit Types (d : gmap string string) (k m : string).

Lemma sorted_set_nil_iff (l : list string) : Py.sorted_set l = [] ↔ l = [].
Proof.
  split; [|by intros ->].
  intros Hnil. destruct l as [|x l]; [done|]. by destruct (sorted_set_not_nil (x :: l)).
Qed.

Lemma omap_nil_iff {A B} (f : A → option B) (l : list A) :
  omap f l = [] ↔ Forall (λ x, f x = None) l.
Proof.
  induction l as [|x l IH]; simpl; [by split; [constructor|]|].
  destruct (f x) eqn:Hx.
  - split; [done|]. intros HF. apply Forall_cons in HF as [? _]. congruence.
  - rewrite IH, Forall_cons. tauto.
Qed.

Lemma fmap_nil_iff {A B} (f : A → B) (l : list A) : f <$> l = [] ↔ l = [].
Proof. split; [apply fmap_nil_inv|by intros ->]. Qed.

Lemma table_dicts_nil_iff penta_fix t : table_dicts penta_fix t = [] ↔ no_samples t.
Proof.
  destruct t as [rows|rows]; simpl.
  - rewrite fmap_nil_iff. unfold group_keys. rewrite sorted_set_nil_iff, omap_nil_iff.
    apply Forall_iff. intros r. by destruct (w_sample r).
  - apply fmap_nil_iff.
Qed.

Lemma sample_dicts_nil_iff penta_fix tables :
  sample_dicts penta_fix tables = [] ↔ Forall no_samples tables.
Proof.
  unfold sample_dicts. induction tables as [|t tables IH]; simpl.
  - by split; [constructor|].
  - rewrite Forall_cons, <-IH, <-(table_dicts_nil_iff penta_fix).
    rewrite app_nil. tauto.
Qed.

Lemma sample_column_iff penta_fix tables :
  "Sample" ∈ frame_columns (sample_dicts penta_fix tables)
  ↔ sample_dicts penta_fix tables ≠ [].
Proof.
  pose proof (sample_dicts_ok penta_fix tables) as Hok.
  destruct (sample_dicts penta_fix tables) as [|d l]; unfold frame_columns; simpl.
  - split; [set_solver|done].
  - split; [done|]. intros _. apply Forall_cons in Hok as [[Hs _] _].
    apply elem_of_union. left. by apply elem_of_dom.
Qed.

(** X12.  When no table contributes a sample, every wide table having
    rows but none with a sample name and every long table being without
    rows, the frame has no "Sample" column and [str_ingress] raises
    [KeyError], with or without a rename table. *)
Theorem str_ingress_without_samples_raises tables sample_map penta_fix :
  Forall (λ t, t ≠ Wide []) tables →
  Forall no_samples tables →
  str_ingress tables sample_map penta_fix = Raise KeyError.
Proof.
  intros _ Hnone%(sample_dicts_nil_iff penta_fix).
  pose proof (sample_column_iff penta_fix tables) as Hcol.
  unfold str_ingress. cbv zeta. case_decide as Hsample; [|done].
  by apply Hcol in Hsample.
Qed.

(** X13.  A returned cohort is not empty, has one record for each
    dictionary collected from the input, in the same order, and no two
    of its records have the same sample key; without a rename table the
    keys are those of the dictionaries. *)
Theorem cohort_keys_distinct tables sample_map penta_fix cohort :
  str_ingress tables sample_map penta_fix = Ok cohort →
  NoDup cohort.*1 ∧
  cohort ≠ [] ∧
  length cohort = length (sample_dicts penta_fix tables) ∧
  (sample_map = None →
   cohort.*1 = (λ d : gmap string string, d !!! "Sample") <$> sample_dicts penta_fix tables).
Proof.
  pose proof (sample_column_iff penta_fix tables) as Hcol.
  unfold str_ingress. cbv zeta.
  case_decide as Hsample; [|done]. case_decide as Hindex; [|done].
  intros [= <-]. apply Hcol in Hsample.
  destruct (apply_sample_map_spec sample_map (sample_dicts penta_fix tables))
    as (g & Hg & _).
  split_and!.
  - by rewrite <-list_fmap_compose.
  - rewrite Hg. intros Hnil%fmap_nil_inv%fmap_nil_inv. done.
  - rewrite Hg. by rewrite !length_fmap.
  - intros ->. cbn [apply_sample_map]. by rewrite <-list_fmap_compose.
Qed.

Lemma insert_items_lookup_notin (items : list (string * string)) d k :
  k ∉ items.*1 →
  fold_left (λ d kv, <[kv.1 := kv.2]> d) items d !! k = d !! k.
Proof.
  revert d. induction items as [|[k' v'] items IH]; intros d; cbn [fold_left]; [done|].
  rewrite fmap_cons, not_elem_of_cons. simpl. intros [Hne Hnotin].
  rewrite IH by done. by rewrite lookup_insert_ne.
Qed.

Lemma dict_of_items_last (items1 items2 : list (string * string)) k v :
  k ∉ items2.*1 → dict_of_items (items1 ++ (k, v) :: items2) !! k = Some v.
Proof.
  intros Hk. unfold dict_of_items. rewrite fold_left_app. cbn [fold_left].
  rewrite insert_items_lookup_notin by done. apply lookup_insert_eq.
Qed.

(** X14.  In the wide layout the rows of one sample are not pooled per
    marker: when several rows of a sample name the same marker, the
    value of the marker is that of the last such row alone, with its
    duplicates removed. *)
Theorem wide_last_row_wins rows samp pre r post :
  sample_rows rows samp = pre ++ r :: post →
  Forall (λ r', Py.strip (w_marker r') ≠ Py.strip (w_marker r)) post →
  Py.strip (w_marker r) ≠ "Sample" →
  wide_sample_dict false rows samp !! Py.strip (w_marker r)
  = Some (remove_duplicates (collapse_alleles (w_alleles r))).
Proof.
  intros Hrows Hpost Hne. unfold wide_sample_dict. cbv zeta.
  rewrite map_lookup_imap, lookup_insert_ne by done.
  rewrite Hrows, fmap_app, fmap_cons, dict_of_items_last.
  - simpl. by rewrite decide_False.
  - rewrite <-list_fmap_compose. intros Hin%list_elem_of_fmap.
    destruct Hin as (r' & Heq & Hr'). rewrite Forall_forall in Hpost.
    by apply (Hpost r' Hr').
Qed.

(** X15.  The Penta folding is never applied to long-layout tables: an
    input made of long tables only is canonicalised the same with the
    fix enabled and disabled. *)
Theorem long_layout_ignores_penta_fix (tables : list (list long_row)) sample_map :
  str_ingress (Long <$> tables) sample_map true
  = str_ingress (Long <$> tables) sample_map false.
Proof.
  assert (sample_dicts true (Long <$> tables) = sample_dicts false (Long <$> tables)) as Hd.
  { unfold sample_dicts. f_equal. rewrite <-!list_fmap_compose.
    by apply list_fmap_ext. }
  unfold str_ingress. cbv zeta. by rewrite Hd.
Qed.

(** X16.  After the Penta folding a dictionary has no key "Penta D" and
    no key "Penta E"; "Penta_D" (and "Penta_E") is left only where the
    spaced spelling was present beside it; and every value of the result
    is a value of the input. *)
Theorem penta_fix_dict_removes_aliases d :
  penta_fix_dict d !! "Penta D" = None ∧
  penta_fix_dict d !! "Penta E" = None ∧
  (d !! "Penta D" = None → penta_fix_dict d !! "Penta_D" = None) ∧
  (d !! "Penta E" = None → penta_fix_dict d !! "Penta_E" = None) ∧
  (∀ k v, penta_fix_dict d !! k = Some v → ∃ k', d !! k' = Some v).
Proof.
  unfold penta_fix_dict. split_and!.
  - rewrite !penta_rename_lookup by done.
    repeat case_match; simplify_eq; try done.
  - rewrite !penta_rename_lookup by done.
    repeat case_match; simplify_eq; try done.
  - intros Hs. rewrite !penta_rename_lookup by done. rewrite Hs.
    repeat case_match; simplify_eq; try done.
  - intros Hs. rewrite !penta_rename_lookup by done.
    repeat case_match; simplify_eq; try done.
  - intros k v. rewrite !penta_rename_lookup by done.
    repeat case_match; simplify_eq; intros ?; simplify_eq; eauto.
Qed.

Lemma rename_key_other sm k id : k ≠ id → rename_key sm k id = k.
Proof. intros Hne. unfold rename_key. by rewrite decide_False. Qed.

Lemma rename_loop_absent sm ids k :
  k ∉ ids → fold_left (rename_key sm) ids k = k.
Proof.
  induction ids as [|id ids IH]; cbn [fold_left]; [done|].
  rewrite not_elem_of_cons. intros [Hne Hk].
  rewrite rename_key_other by done. by apply IH.
Qed.

(** X17.  A rename table none of whose "old" entries is a sample key of
    the input changes nothing: the ingress returns what it returns
    without the table. *)
Theorem sample_map_without_match_is_noop tables (sm : list (string * string)) penta_fix :
  Forall (λ d : gmap string string, d !!! "Sample" ∉ sm.*1)
         (sample_dicts penta_fix tables) →
  str_ingress tables (Some sm) penta_fix = str_ingress tables None penta_fix.
Proof.
  intros Hkeys.
  pose proof (sample_dicts_ok penta_fix tables) as Hok.
  assert (apply_sample_map (Some sm) (sample_dicts penta_fix tables)
          = sample_dicts penta_fix tables) as Hsame.
  { destruct (apply_sample_map_spec (Some sm) (sample_dicts penta_fix tables))
      as (g & -> & Hg).
    rewrite <-(list_fmap_id (sample_dicts penta_fix tables)) at 2.
    apply Forall_fmap_ext_1.
    rewrite Forall_forall in Hkeys. rewrite Forall_forall in Hok.
    apply Forall_forall. intros d Hd.
    destruct (Hok d Hd) as [[k Hk] _]. destruct (Hg d) as [Hdel Hkey].
    specialize (Hkeys d Hd). rewrite (lookup_total_correct _ _ _ Hk) in Hkeys.
    rewrite Hk in Hkey. cbn [rename_keys] in Hkey.
    change (g d !! "Sample" = Some (fold_left (rename_key sm) sm.*1 k)) in Hkey.
    rewrite rename_loop_absent in Hkey by done.
    change (id d) with d.
    apply map_eq. intros j. destruct (decide (j = "Sample")) as [->|Hj].
    - by rewrite Hkey, Hk.
    - apply (f_equal (λ m : gmap string string, m !! j)) in Hdel.
      by rewrite !lookup_delete_ne in Hdel. }
  unfold str_ingress. cbv zeta. by rewrite Hsame.
Qed.

End ingress_more.

Lemma str_ingress_without_samples_raises_witness :
  str_ingress (SR:=newline_render)
    [Wide [ {| w_sample := NaN; w_marker := "TH01"; w_alleles := [Str "6"] |} ]; Long []]
    None true = Raise KeyError.
Proof.
  apply (str_ingress_without_samples_raises (SR:=newline_render)
           [Wide [ {| w_sample := NaN; w_marker := "TH01"; w_alleles := [Str "6"] |} ];
            Long []] None true).
  - repeat constructor; discriminate.
  - repeat constructor.
Defined.

Lemma cohort_keys_distinct_witness :
  ∃ cohort,
    str_ingress (SR:=newline_render) [Wide wide_rows; Long long_rows] None true = Ok cohort ∧
    NoDup cohort.*1 ∧ cohort ≠ [] ∧
    length cohort = length (sample_dicts true [Wide wide_rows; Long long_rows]) ∧
    (@None (list (string * string)) = None →
     cohort.*1 = (λ d : gmap string string, d !!! "Sample")
                   <$> sample_dicts true [Wide wide_rows; Long long_rows]).
Proof.
  eexists. split.
  - vm_compute. reflexivity.
  - apply (cohort_keys_distinct (SR:=newline_render)
             [Wide wide_rows; Long long_rows] None true).
    vm_compute. reflexivity.
Defined.

Lemma wide_last_row_wins_witness :
  wide_sample_dict false repeated_marker_rows "S1" !! Py.strip "TH01"
  = Some (remove_duplicates (collapse_alleles [Str "9.3"; Str "9.3"])).
Proof.
  apply (wide_last_row_wins repeated_marker_rows "S1"
           [ {| w_sample := Str "S1"; w_marker := "TH01"; w_alleles := [Str "6"] |} ]
           {| w_sample := Str "S1"; w_marker := "TH01";
              w_alleles := [Str "9.3"; Str "9.3"] |} []).
  - vm_compute. reflexivity.
  - constructor.
  - vm_compute. discriminate.
Defined.

Lemma penta_fix_dict_removes_aliases_witness :
  penta_fix_dict {[ "Penta_D" := "9"; "TH01" := "6" ]} !! "Penta_D" = None.
Proof.
  apply (proj1 (proj2 (proj2 (penta_fix_dict_removes_aliases
                                {[ "Penta_D" := "9"; "TH01" := "6" ]})))).
  vm_compute. reflexivity.
Defined.

Lemma sample_map_without_match_is_noop_witness :
  str_ingress (SR:=newline_render) [Wide wide_rows; Long long_rows]
              (Some [("S999", "LineageX")]) true
  = str_ingress (SR:=newline_render) [Wide wide_rows; Long long_rows] None true.
Proof.
  apply (sample_map_without_match_is_noop (SR:=newline_render)
           [Wide wide_rows; Long long_rows] [("S999", "LineageX")] true).
  apply (bool_decide_unpack _). vm_compute. exact I.
Defined.

(** ** The comparison engine: when a run succeeds and what it reports *)

Section ranking_more.
Context {F : Type} {PF : PyFloat F} {FS : FrameSort F}.
Implicit Types (samps : list (string * gmap string string)) (r : Row F).

(** X18.  [make_summary] returns a summary line exactly when the frame
    has at least three rows, and fails with [IndexError] otherwise; the
    thresholds play no part in that. *)
Theorem make_summary_needs_three_rows samp_df alleles th1 th2 th3 mixed s_name :
  ((∃ summ, make_summary samp_df alleles th1 th2 th3 mixed s_name = Ok summ)
   ↔ (3 ≤ length samp_df)%nat) ∧
  (∀ e, make_summary samp_df alleles th1 th2 th3 mixed s_name = Raise e →
        e = IndexError).
Proof.
  destruct (decide (length samp_df < 3)%nat) as [Hshort|Hlong].
  - rewrite make_summary_short by done. split.
    + split; [by intros [? ?]|lia].
    + by intros e [= <-].
  - destruct samp_df as [|r0 [|r1 [|r2 l]]]; cbn [length] in Hlong; try lia.
    unfold make_summary, iloc. cbv zeta. cbn [lookup list_lookup mbind result_bind].
    split.
    + split; [cbn [length]; lia|by eexists].
    + by intros e.
Qed.





End ranking_more.

Section ranking_runs.
Context {F : Type} {PF : PyFloat F} {FS : FrameSort F}.
Implicit Types (samps : list (string * gmap string string)) (r : Row F).








End ranking_runs.

Section ranking_reports.
Context {F : Type} {PF : PyFloat F} {FS : FrameSort F}.
Implicit Types (samps : list (string * gmap string string)) (r : Row F).

Lemma descending_trans :
  (∀ x y z : F, fge x y = true → fge y z = true → fge x z = true) →
  Transitive (descending (F:=F)).
Proof.
  intros Htrans r1 r2 r3 (x & y & Hx & Hy & Hxy) (y' & z & Hy' & Hz & Hyz).
  assert (y' = y) as -> by congruence.
  exists x, z. split_and!; [done..|]. by eapply Htrans.
Qed.

Lemma matches_str_skips_query (col : Row F → option F) th s mixed q (rest : list (Row F)) :
  col (query_row s mixed q) = None →
  matches_str col th (query_row s mixed q :: rest) = matches_str col th rest.
Proof.
  intros Hcol. unfold matches_str.
  rewrite filter_cons_False; [done|]. unfold cell_ge. by rewrite Hcol.
Qed.

(** X20.  What the summary line of a sample reports, when [>=] on the
    scores is transitive: "top_hit" is the row after the placeholder and
    its Tanabe score is at least that of every other partner,
    "next_best" is the row after it and is at least every later one; the
    name, the mixing flag and the alleles are those of the sample; and
    the placeholder row is in none of the three match lists. *)
Theorem compare_sample_reports_best samps th1 th2 th3 mix score_amel s q
    full_samp_out summ :
  sort_values_contract sort_values →
  (∀ x y z : F, fge x y = true → fge y z = true → fge x z = true) →
  compare_sample samps th1 th2 th3 mix score_amel (s, q) = Ok (full_samp_out, summ) →
  ∃ r1 r2 rest,
    full_samp_out = query_row s (mixing_check q mix) q :: r1 :: r2 :: rest ∧
    sum_top_hit summ = hit_str col_tanabe_score r1 ∧
    sum_next_best summ = hit_str col_tanabe_score r2 ∧
    Forall (descending r1) (r2 :: rest) ∧
    Forall (descending r2) rest ∧
    sum_Sample summ = s ∧
    sum_mixed summ = mixing_check q mix ∧
    sum_alleles summ = q ∧
    sum_tanabe_matches summ = matches_str col_tanabe_score th1 (r1 :: r2 :: rest) ∧
    sum_masters_query_matches summ
      = matches_str col_masters_query_score th2 (r1 :: r2 :: rest) ∧
    sum_masters_ref_matches summ
      = matches_str col_masters_ref_score th3 (r1 :: r2 :: rest).
Proof.
  intros Hsort Htrans. unfold compare_sample. cbv zeta. cbn [fst snd].
  destruct (comparison_rows samps s q score_amel) as [others|e] eqn:Hothers; [|done].
  cbn [mbind result_bind].
  destruct (comparison_rows_Ok _ _ _ _ _ Hothers) as [Hscores _].
  destruct (sort_one_undefined (query_row s (mixing_check q mix) q) others)
    as (rest0 & -> & _ & Hdesc); [done|done| |].
  { eapply Forall_impl; [exact Hscores|]. by intros r [? _]. }
  destruct rest0 as [|r1 [|r2 rest]]; try done.
  unfold make_summary, iloc. cbv zeta. cbn [lookup list_lookup mbind result_bind].
  intros [= <- <-]. exists r1, r2, rest. cbn.
  pose proof (descending_trans Htrans) as Hdt.
  apply (Sorted_StronglySorted descending) in Hdesc.
  apply StronglySorted_cons in Hdesc as [H1 Hdesc].
  apply StronglySorted_cons in Hdesc as [H2 _].
  split_and!; try done; by apply matches_str_skips_query.
Qed.


End ranking_reports.

Lemma Q_ge_trans (x y z : Q) : Q_ge x y = true → Q_ge y z = true → Q_ge x z = true.
Proof.
  unfold Q_ge. rewrite !Qle_bool_iff. intros Hyx Hzy. by eapply Qle_trans.
Qed.

Lemma make_summary_needs_three_rows_witness :
  ∃ summ, make_summary (F:=Q)
            [query_row "A" false recA; query_row "B" false recB; query_row "C" false recC]
            recA 80%Q 80%Q 80%Q false "A" = Ok summ.
Proof.
  apply (proj2 (proj1 (make_summary_needs_three_rows (F:=Q)
           [query_row "A" false recA; query_row "B" false recB; query_row "C" false recC]
           recA 80%Q 80%Q 80%Q false "A"))).
  simpl. lia.
Defined.


Lemma compare_sample_reports_best_witness :
  ∃ full_samp_out summ r1 r2 rest,
    compare_sample (FS:=stable_sort) cohort3 80%Q 50%Q 80%Q 3 false ("A", recA)
      = Ok (full_samp_out, summ) ∧
    full_samp_out = query_row "A" (mixing_check recA 3) recA :: r1 :: r2 :: rest ∧
    sum_top_hit summ = hit_str col_tanabe_score r1 ∧
    sum_next_best summ = hit_str col_tanabe_score r2 ∧
    Forall (descending r1) (r2 :: rest) ∧
    Forall (descending r2) rest ∧
    sum_Sample summ = "A" ∧
    sum_mixed summ = mixing_check recA 3 ∧
    sum_alleles summ = recA ∧
    sum_tanabe_matches summ = matches_str col_tanabe_score 80%Q (r1 :: r2 :: rest) ∧
    sum_masters_query_matches summ
      = matches_str col_masters_query_score 50%Q (r1 :: r2 :: rest) ∧
    sum_masters_ref_matches summ
      = matches_str col_masters_ref_score 80%Q (r1 :: r2 :: rest).
Proof.
  eexists _, _.
  destruct (compare_sample_reports_best (FS:=stable_sort)
              cohort3 80%Q 50%Q 80%Q 3 false "A" recA _ _
              stable_sort_contract Q_ge_trans ltac:(vm_compute; reflexivity))
    as (r1 & r2 & rest & Hrest).
  exists r1, r2, rest. split; [vm_compute; reflexivity|exact Hrest].
Defined.


(** ** The two layouts *)

Section layouts.
Context {SR : SeriesRender}.
Implicit Types (d : gmap string string) (rows : list wide_row).

Lemma cleaned_dict_sample (clean : string → string) (items : gmap string string) samp :
  map_imap (λ k v, Some (if decide (k = "Sample") then v else clean v))
           (<["Sample" := samp]> items) !! "Sample" = Some samp.
Proof. by rewrite map_lookup_imap, lookup_insert_eq. Qed.


Lemma long_sample_dict_sample (r : long_row) :
  long_sample_dict r !!! "Sample" = cell_astype_str (l_sample r).
Proof. apply lookup_total_correct, cleaned_dict_sample. Qed.


(** X23.  A long table with two rows of the same sample name (after
    trimming, a missing name being the empty string) is refused: without
    a rename table the ingress raises [ValueError]. *)
Theorem long_table_duplicate_sample_raises (rows : list long_row) penta_fix :
  ¬ NoDup ((λ r, cell_astype_str (l_sample r)) <$> rows) →
  str_ingress [Long rows] None penta_fix = Raise ValueError.
Proof.
  intros Hdup.
  assert (sample_dicts penta_fix [Long rows] = long_sample_dict <$> rows) as Hdicts.
  { unfold sample_dicts. simpl. apply app_nil_r. }
  assert (rows ≠ []) as Hrows.
  { intros ->. apply Hdup. constructor. }
  pose proof (sample_column_iff penta_fix [Long rows]) as Hcol.
  unfold str_ingress. cbv zeta. rewrite decide_True.
  - cbn [apply_sample_map]. rewrite decide_False; [done|].
    rewrite Hdicts, <-list_fmap_compose. intros Hnd. apply Hdup.
    erewrite list_fmap_ext; [exact Hnd|].
    intros i r _. symmetry. apply long_sample_dict_sample.
  - apply Hcol. rewrite Hdicts. by intros ?%fmap_nil_inv.
Qed.

Lemma lstrip_no_chars chars s :
  (∀ c, c ∈ list_ascii_of_string s → c ∉ chars) → Py.lstrip chars s = s.
Proof.
  destruct s as [|a s]; simpl; [done|]. intros Hs.
  unfold Py.mem. rewrite bool_decide_eq_false_2; [done|].
  apply Hs, elem_of_cons. by left.
Qed.

Lemma rstrip_no_chars chars s :
  (∀ c, c ∈ list_ascii_of_string s → c ∉ chars) → Py.rstrip chars s = s.
Proof.
  induction s as [|a s IH]; simpl; [done|]. intros Hs.
  rewrite IH by (intros c Hc; apply Hs, elem_of_cons; by right).
  destruct s; [|done].
  unfold Py.mem. rewrite bool_decide_eq_false_2; [done|].
  apply Hs, elem_of_cons. by left.
Qed.

(** X24.  On a cell that holds a single label the two layouts agree:
    when the cell has no comma and is not the text "nan", the wide
    layout and the long layout store the same value, the label trimmed
    and stripped. *)
Theorem layouts_agree_on_single_label (v : string) :
  ","%char ∉ list_ascii_of_string v →
  Py.strip v ≠ "nan" →
  remove_duplicates (collapse_alleles [Str v])
  = _clean_element (cell_astype_str (Str v)) ∧
  _clean_element (cell_astype_str (Str v))
  = Py.rstrip ["."; "0"]%char (Py.strip (Py.strip v)).
Proof.
  intros Hcomma Hnan.
  set (c := Py.strip v).
  set (y := Py.rstrip ["."; "0"]%char (Py.strip c)).
  assert (","%char ∉ list_ascii_of_string c) as Hc.
  { intros Hin. apply Hcomma. by eapply strip_chars_chars. }
  assert (","%char ∉ list_ascii_of_string y) as Hy.
  { intros Hin%rstrip_chars%strip_chars_chars. done. }
  assert (_clean_element c = y) as Hlong.
  { unfold _clean_element. rewrite (split_no_sep _ _ Hc). done. }
  assert (collapse_alleles [Str v] = y) as Hwide.
  { unfold collapse_alleles. cbn [cell_str]. fold c.
    rewrite filter_cons_True, filter_nil by done.
    cbn [fmap list_fmap Py.join]. fold y. unfold Py.strip_chars.
    rewrite rstrip_no_chars, lstrip_no_chars; [done| |];
      intros a Ha; rewrite list_elem_of_singleton; by intros ->. }
  cbn [cell_astype_str]. fold c. rewrite Hwide, Hlong. split; [|done].
  unfold remove_duplicates. rewrite (split_no_sep _ _ Hy). done.
Qed.

End layouts.

Lemma long_table_duplicate_sample_raises_witness :
  str_ingress (SR:=newline_render)
    [Long [ {| l_sample := Str "A"; l_markers := {[ "M1" := Str "9" ]} |};
            {| l_sample := Str " A"; l_markers := {[ "M1" := Str "10" ]} |} ]]
    None true = Raise ValueError.
Proof.
  apply (long_table_duplicate_sample_raises (SR:=newline_render)).
  intros Hnd. vm_compute in Hnd.
  apply NoDup_cons in Hnd as [Hin _]. apply Hin, elem_of_cons. by left.
Defined.

Lemma layouts_agree_on_single_label_witness :
  remove_duplicates (collapse_alleles [Str " 9.30 "])
  = _clean_element (cell_astype_str (Str " 9.30 ")) ∧
  _clean_element (cell_astype_str (Str " 9.30 "))
  = Py.rstrip ["."; "0"]%char (Py.strip (Py.strip " 9.30 ")).
Proof.
  apply (layouts_agree_on_single_label " 9.30 ").
  - apply (bool_decide_unpack _). vm_compute. exact I.
  - vm_compute. discriminate.
Defined.
